(** * FridgeChef: recipe scoring, ranking, suggestions and the preference store

    A shallow embedding of the two recommendation modules of the
    repository:

    - [Engine]  : [src/services/RecommendationEngine.ts] (class
      [RecommendationEngine], the trimmed copy);
    - [Service] : class [RecommendationService] (the full copy, with cooking
      history, dietary and skill terms and [updateIngredientPreference]);
      its [getSeasonalRecommendations] and, in [Daily], its
      [getRecipeOfTheDay];
    - [Grocery], [Ordering] : class [GroceryDeliveryService] (quotes, order
      tracking, order placement);
    - [Home] : [loadDashboardData] of the home screen (src/app/index.tsx),
      the caller of the engine's suggestions.

    Conventions.
    - A JavaScript number is an exact rational ([Q]); a division whose result
      would not be finite ([NaN], [Infinity]) yields [None].
    - A string is a [string] of bytes; [toLowerCase] folds the letters A-Z.
    - [AsyncStorage] is a two-key store whose calls may reject according to a
      schedule carried by the world; JSON text is represented by the value it
      decodes to, or by [Unparsable] when [JSON.parse] throws.
    - [this.defaultPreferences] is one mutable object shared by every caller
      that receives it; it lives in the world, and references to it are
      [Shared].
    - What a function draws from outside the two stored keys (another storage
      key, [Math.random()], the network, the date) is an explicit argument;
      simulated delays ([setTimeout]) are left out. *)

From Stdlib Require Import QArith String Ascii List Bool Arith Lia.
From Stdlib Require Import Sorted Permutation Qround Lqa.
Import ListNotations.

Local Open Scope string_scope.
Local Open Scope list_scope.

(* ===================================================================== *)
(** ** The JavaScript primitives the modules use *)
(* ===================================================================== *)

Module JS.

Definition number := Q.

Definition of_nat (n : nat) : number := inject_Z (Z.of_nat n).

(** Truthiness of a number: [0] is falsy. *)
Definition truthy (x : number) : bool := negb (Qeq_bool x 0).

(** [x || d] on an optional numeric field: [undefined] and [0] give [d]. *)
Definition or_default (x : option number) (d : number) : number :=
  match x with
  | Some v => if truthy v then v else d
  | None => d
  end.

(** [a / b]; [None] when the quotient is not a finite number. *)
Definition div (a b : number) : option number :=
  if Qeq_bool b 0 then None else Some (a / b)%Q.

Definition Math_max (a b : number) : number := if Qle_bool a b then b else a.
Definition Math_min (a b : number) : number := if Qle_bool a b then a else b.

(** [!b] on an optional boolean field. *)
Definition not_flag (b : option bool) : bool :=
  match b with Some true => false | _ => true end.

Definition lower_char (c : ascii) : ascii :=
  let n := nat_of_ascii c in
  if (65 <=? n)%nat && (n <=? 90)%nat then ascii_of_nat (n + 32) else c.

Fixpoint toLowerCase (s : string) : string :=
  match s with
  | EmptyString => EmptyString
  | String c s' => String (lower_char c) (toLowerCase s')
  end.

(** [s.includes(t)]: [t] occurs in [s] at some position. *)
Fixpoint includes (s t : string) : bool :=
  String.prefix t s ||
  match s with
  | EmptyString => false
  | String _ s' => includes s' t
  end.

(** [arr.includes(x)] on an array of strings. *)
Definition Array_includes (arr : list string) (x : string) : bool :=
  existsb (String.eqb x) arr.

(** A [Set<string>] is its elements in insertion order. *)
Definition Set_add (s : list string) (x : string) : list string :=
  if Array_includes s x then s else s ++ [x].

(** [xs.forEach(x => s.add(x))]. *)
Definition add_all (xs : list string) (s : list string) : list string :=
  fold_left Set_add xs s.

(** [arr.sort(compareFn)]: a stable sort; [x] goes before [y] when
    [compareFn x y <= 0]. *)
Section Sort.
Context {A : Type} (compareFn : A -> A -> number).

Fixpoint insert (x : A) (l : list A) : list A :=
  match l with
  | [] => [x]
  | y :: l' =>
      if Qle_bool (compareFn x y) 0 then x :: y :: l' else y :: insert x l'
  end.

Definition sort (l : list A) : list A := fold_right insert [] l.
End Sort.

End JS.

(* ===================================================================== *)
(** ** Data model *)
(* ===================================================================== *)

Inductive SkillLevel := beginner | intermediate | advanced.

Record UserPreferences := mkPreferences {
  dietaryRestrictions : list string;
  favoriteIngredients : list string;
  dislikedIngredients : list string;
  cuisinePreferences : list string;
  maxCookingTime : JS.number;
  skillLevel : SkillLevel
}.

Record CookingHistory := mkHistory {
  recipeId : string;
  cookedAt : string;
  rating : option JS.number;
  notes : option string
}.

Record Ingredient := mkIngredient { name : string }.

(** The fields of an (untyped) recipe object that the modules read; [id] is
    [recipe.id.toString()]. *)
Record Recipe := mkRecipe {
  id : string;
  healthScore : option JS.number;
  spoonacularScore : option JS.number;
  readyInMinutes : option JS.number;
  extendedIngredients : option (list Ingredient);
  instructions : option string;
  vegetarian : option bool;
  vegan : option bool;
  glutenFree : option bool
}.

(** [{ ...recipe, personalScore: score }]. *)
Record ScoredRecipe := mkScored {
  base : Recipe;
  personalScore : JS.number
}.

Inductive Complexity := easy | medium | hard.

(** [private defaultPreferences] as the class initialises it. *)
Definition initialDefaultPreferences : UserPreferences :=
  {| dietaryRestrictions := [];
     favoriteIngredients := [];
     dislikedIngredients := [];
     cuisinePreferences := [];
     maxCookingTime := 60;
     skillLevel := beginner |}.

(* ===================================================================== *)
(** ** Scoring helpers (the same text in both classes) *)
(* ===================================================================== *)

(** [recipe.extendedIngredients?.map(ing => ing.name.toLowerCase()) || []]. *)
Definition recipeIngredientsOf (recipe : Recipe) : list string :=
  match extendedIngredients recipe with
  | Some ings => map (fun ing => JS.toLowerCase (name ing)) ings
  | None => []
  end.

(** The predicate inside [availableIngredients.some(...)]. *)
Definition availabilityMatch (recipeIng availableIng : string) : bool :=
  JS.includes (JS.toLowerCase availableIng) recipeIng ||
  JS.includes recipeIng (JS.toLowerCase availableIng).

(** The predicate inside [favoriteIngredients.some(...)] and
    [dislikedIngredients.some(...)]. *)
Definition preferenceMatch (recipeIng preferred : string) : bool :=
  JS.includes recipeIng (JS.toLowerCase preferred).

Definition calculateIngredientAvailability
    (recipeIngredients availableIngredients : list string) : option JS.number :=
  if (length recipeIngredients =? 0)%nat then Some 0%Q
  else
    let availableCount :=
      length (filter (fun recipeIng =>
                        existsb (availabilityMatch recipeIng) availableIngredients)
                     recipeIngredients) in
    JS.div (JS.of_nat availableCount) (JS.of_nat (length recipeIngredients)).

Definition calculateFavoriteIngredientsBonus
    (recipeIngredients favoriteIngredients : list string) : JS.number :=
  if (length favoriteIngredients =? 0)%nat then 0%Q
  else
    let favoriteCount :=
      length (filter (fun recipeIng =>
                        existsb (preferenceMatch recipeIng) favoriteIngredients)
                     recipeIngredients) in
    (JS.of_nat favoriteCount * 8)%Q.

Definition calculateDislikedIngredientsPenalty
    (recipeIngredients dislikedIngredients : list string) : JS.number :=
  if (length dislikedIngredients =? 0)%nat then 0%Q
  else
    let dislikedCount :=
      length (filter (fun recipeIng =>
                        existsb (preferenceMatch recipeIng) dislikedIngredients)
                     recipeIngredients) in
    (JS.of_nat dislikedCount * 15)%Q.

(** [getComplementaryIngredients], over the class's [complementaryMap]
    (its keys in definition order). *)
Definition complementaryOver (complementaryMap : list (string * list string))
    (ingredients : list string) : list string :=
  fold_left
    (fun suggestions ingredient =>
       let lowerIngredient := JS.toLowerCase ingredient in
       fold_left
         (fun suggestions entry =>
            if JS.includes lowerIngredient (fst entry)
            then JS.add_all (snd entry) suggestions
            else suggestions)
         complementaryMap suggestions)
    ingredients [].

(** The filter of [getSuggestedIngredients]. *)
Definition keepSuggestion (currentIngredients dislikedIngredients : list string)
    (ing : string) : bool :=
  negb (existsb (fun current =>
                   JS.includes (JS.toLowerCase current) (JS.toLowerCase ing))
                currentIngredients) &&
  negb (existsb (fun disliked =>
                   JS.includes (JS.toLowerCase disliked) (JS.toLowerCase ing))
                dislikedIngredients).

(** The body of [getSuggestedIngredients] once the preferences are read. *)
Definition suggestFrom (complementaryMap : list (string * list string))
    (preferences : UserPreferences) (currentIngredients : list string)
    : list string :=
  let suggestions := JS.add_all (favoriteIngredients preferences) [] in
  let complementary := complementaryOver complementaryMap currentIngredients in
  let suggestions := JS.add_all complementary suggestions in
  firstn 8
    (filter (keepSuggestion currentIngredients (dislikedIngredients preferences))
            suggestions).

(* ===================================================================== *)
(** ** The world: the service instance, the device storage, the clock *)
(* ===================================================================== *)

(** What [AsyncStorage.getItem] resolves to: nothing ([null], or the empty
    text, both falsy), text on which [JSON.parse] throws, or text that
    decodes to a value. *)
Inductive Item (A : Type) : Type :=
| Absent
| Unparsable
| Json (a : A).
Arguments Absent {A}.
Arguments Unparsable {A}.
Arguments Json {A} a.

Record World := mkWorld {
  defaultPreferences : UserPreferences; (* [this.defaultPreferences] *)
  preferencesItem : Item UserPreferences; (* key ['userPreferences'] *)
  cookingHistoryItem : Item (list CookingHistory); (* key ['cookingHistory'] *)
  rejections : list bool; (* does the next storage call reject? *)
  clock : string (* [new Date().toISOString()] *)
}.

Definition set_defaultPreferences (p : UserPreferences) (w : World) : World :=
  mkWorld p (preferencesItem w) (cookingHistoryItem w) (rejections w) (clock w).
Definition set_preferencesItem (i : Item UserPreferences) (w : World) : World :=
  mkWorld (defaultPreferences w) i (cookingHistoryItem w) (rejections w) (clock w).
Definition set_cookingHistoryItem (i : Item (list CookingHistory)) (w : World)
    : World :=
  mkWorld (defaultPreferences w) (preferencesItem w) i (rejections w) (clock w).
Definition set_rejections (r : list bool) (w : World) : World :=
  mkWorld (defaultPreferences w) (preferencesItem w) (cookingHistoryItem w) r
          (clock w).

(** A world as the app starts on a new device. *)
Definition freshWorld (schedule : list bool) (now : string) : World :=
  mkWorld initialDefaultPreferences Absent Absent schedule now.

(** An awaited computation either returns or throws, and leaves a world. *)
Inductive Completion (A : Type) : Type :=
| Returns (a : A)
| Throws.
Arguments Returns {A} a.
Arguments Throws {A}.

Definition Async (A : Type) : Type := World -> Completion A * World.

Definition ret {A} (a : A) : Async A := fun w => (Returns a, w).

Definition throw {A} : Async A := fun w => (Throws, w).

Definition bind {A B} (c : Async A) (k : A -> Async B) : Async B :=
  fun w =>
    match c w with
    | (Returns a, w') => k a w'
    | (Throws, w') => (Throws, w')
    end.

(** [try { body } catch (error) { handler }]: the effects of [body] up to the
    throw are kept. *)
Definition try_catch {A} (body handler : Async A) : Async A :=
  fun w =>
    match body w with
    | (Returns a, w') => (Returns a, w')
    | (Throws, w') => handler w'
    end.

Declare Scope async_scope.
Delimit Scope async_scope with async.
Notation "x <- c ;; k" := (bind c (fun x => k))
  (at level 61, c at next level, right associativity) : async_scope.
Notation "c ;;; k" := (bind c (fun _ => k))
  (at level 61, right associativity) : async_scope.
Local Open Scope async_scope.

Definition world_after {A} (c : Async A) (w : World) : World := snd (c w).
Definition value_of {A} (c : Async A) (w : World) : Completion A := fst (c w).

(** Every [AsyncStorage] call consumes one entry of the schedule. *)
Definition storageCall : Async unit :=
  fun w =>
    (if hd false (rejections w) then Throws else Returns tt,
     set_rejections (tl (rejections w)) w).

Definition getItem_PREFERENCES : Async (Item UserPreferences) :=
  storageCall ;;; fun w => (Returns (preferencesItem w), w).

Definition setItem_PREFERENCES (v : UserPreferences) : Async unit :=
  storageCall ;;; fun w => (Returns tt, set_preferencesItem (Json v) w).

Definition getItem_COOKING_HISTORY : Async (Item (list CookingHistory)) :=
  storageCall ;;; fun w => (Returns (cookingHistoryItem w), w).

Definition setItem_COOKING_HISTORY (v : list CookingHistory) : Async unit :=
  storageCall ;;; fun w => (Returns tt, set_cookingHistoryItem (Json v) w).

Definition Date_toISOString : Async string := fun w => (Returns (clock w), w).

(** A reference to a preferences object: the instance's shared default
    object, or an object of the holder's own (a parsed copy or a literal). *)
Inductive Obj (A : Type) : Type :=
| Shared
| Own (a : A).
Arguments Shared {A}.
Arguments Own {A} a.

(** [Partial<UserPreferences>]. *)
Record PartialPreferences := mkPartial {
  p_dietaryRestrictions : option (list string);
  p_favoriteIngredients : option (list string);
  p_dislikedIngredients : option (list string);
  p_cuisinePreferences : option (list string);
  p_maxCookingTime : option JS.number;
  p_skillLevel : option SkillLevel
}.

Definition as_partial (p : UserPreferences) : PartialPreferences :=
  mkPartial (Some (dietaryRestrictions p)) (Some (favoriteIngredients p))
            (Some (dislikedIngredients p)) (Some (cuisinePreferences p))
            (Some (maxCookingTime p)) (Some (skillLevel p)).

Definition pick {A} (over : option A) (under : A) : A :=
  match over with Some a => a | None => under end.

(** [{ ...current, ...preferences }]. *)
Definition spread (current : UserPreferences) (preferences : PartialPreferences)
    : UserPreferences :=
  mkPreferences
    (pick (p_dietaryRestrictions preferences) (dietaryRestrictions current))
    (pick (p_favoriteIngredients preferences) (favoriteIngredients current))
    (pick (p_dislikedIngredients preferences) (dislikedIngredients current))
    (pick (p_cuisinePreferences preferences) (cuisinePreferences current))
    (pick (p_maxCookingTime preferences) (maxCookingTime current))
    (pick (p_skillLevel preferences) (skillLevel current)).

(** Reading the fields of a referenced object, now. *)
Definition read (o : Obj UserPreferences) : Async UserPreferences :=
  fun w =>
    (Returns (match o with Shared => defaultPreferences w | Own p => p end), w).

Definition read_partial (o : Obj PartialPreferences) : Async PartialPreferences :=
  fun w =>
    (Returns (match o with
              | Shared => as_partial (defaultPreferences w)
              | Own p => p
              end), w).

(** Passing a full preferences object where a partial one is expected. *)
Definition upcast (o : Obj UserPreferences) : Obj PartialPreferences :=
  match o with Shared => Shared | Own p => Own (as_partial p) end.

(** Updating the referenced object in place: through [Shared] the instance's
    default object changes. *)
Definition mutate (f : UserPreferences -> UserPreferences)
    (o : Obj UserPreferences) : Async (Obj UserPreferences) :=
  fun w =>
    match o with
    | Shared => (Returns Shared, set_defaultPreferences (f (defaultPreferences w)) w)
    | Own p => (Returns (Own (f p)), w)
    end.

(* ===================================================================== *)
(** ** Preference store (the same text in both classes) *)
(* ===================================================================== *)

Definition getUserPreferences : Async (Obj UserPreferences) :=
  try_catch
    (saved <- getItem_PREFERENCES ;;
     match saved with
     | Absent => ret Shared
     | Unparsable => throw
     | Json p => ret (Own p)
     end)
    (ret Shared).

Definition updateUserPreferences (preferences : Obj PartialPreferences)
    : Async unit :=
  try_catch
    (current <- getUserPreferences ;;
     current <- read current ;;
     preferences <- read_partial preferences ;;
     let updated := spread current preferences in
     setItem_PREFERENCES updated)
    (ret tt).

(** [recipes.map(recipe => ({ ...recipe, personalScore: score(recipe) }))]. *)
Fixpoint scoreAll (score : Recipe -> option JS.number) (recipes : list Recipe)
    : option (list ScoredRecipe) :=
  match recipes with
  | [] => Some []
  | recipe :: rest =>
      match score recipe, scoreAll score rest with
      | Some s, Some scored => Some (mkScored recipe s :: scored)
      | _, _ => None
      end
  end.

(** [(a, b) => b.personalScore - a.personalScore]. *)
Definition byPersonalScore (a b : ScoredRecipe) : JS.number :=
  (personalScore b - personalScore a)%Q.

(* ===================================================================== *)
(** ** [RecommendationEngine] (src/services/RecommendationEngine.ts) *)
(* ===================================================================== *)

Module Engine.

Definition calculateRecipeScore (recipe : Recipe) (preferences : UserPreferences)
    (availableIngredients : list string) : option JS.number :=
  let score := 0%Q in
  let score := (score + JS.or_default (healthScore recipe) 50 * 0.3)%Q in
  let score := (score + JS.or_default (spoonacularScore recipe) 50 * 0.2)%Q in
  let recipeIngredients := recipeIngredientsOf recipe in
  match calculateIngredientAvailability recipeIngredients availableIngredients with
  | None => None
  | Some availabilityScore =>
      let score := (score + availabilityScore * 20)%Q in
      let cookingTime := JS.or_default (readyInMinutes recipe) 60 in
      let score :=
        if Qle_bool cookingTime (maxCookingTime preferences) then
          let score := (score + 15)%Q in
          if Qle_bool cookingTime 30 then (score + 10)%Q else score
        else (score - 10)%Q in
      let favoriteBonus :=
        calculateFavoriteIngredientsBonus recipeIngredients
          (favoriteIngredients preferences) in
      let score := (score + favoriteBonus)%Q in
      let dislikedPenalty :=
        calculateDislikedIngredientsPenalty recipeIngredients
          (dislikedIngredients preferences) in
      let score := (score - dislikedPenalty)%Q in
      Some (JS.Math_max 0 (JS.Math_min 100 score))
  end.

Definition getPersonalizedRecommendations (availableIngredients : list string)
    (recipes : list Recipe) : Async (option (list ScoredRecipe)) :=
  preferences <- getUserPreferences ;;
  preferences <- read preferences ;;
  let scoredRecipes :=
    scoreAll (fun recipe =>
                calculateRecipeScore recipe preferences availableIngredients)
             recipes in
  ret (option_map (JS.sort byPersonalScore) scoredRecipes).

Definition complementaryMap : list (string * list string) :=
  [ ("tomato", ["basil"; "mozzarella"; "garlic"; "olive oil"]);
    ("chicken", ["rosemary"; "thyme"; "lemon"; "garlic"]);
    ("pasta", ["parmesan"; "basil"; "garlic"; "olive oil"]);
    ("rice", ["soy sauce"; "ginger"; "scallions"]);
    ("beef", ["onion"; "garlic"; "mushrooms"]);
    ("salmon", ["dill"; "lemon"; "capers"]);
    ("potato", ["rosemary"; "thyme"; "garlic"; "butter"]) ].

Definition getComplementaryIngredients (ingredients : list string) : list string :=
  complementaryOver complementaryMap ingredients.

Definition getSuggestedIngredients (currentIngredients : list string)
    : Async (list string) :=
  preferences <- getUserPreferences ;;
  preferences <- read preferences ;;
  ret (suggestFrom complementaryMap preferences currentIngredients).

End Engine.

(* ===================================================================== *)
(** ** [RecommendationService] (the full copy) *)
(* ===================================================================== *)

Module Service.

Definition getCookingHistory : Async (list CookingHistory) :=
  try_catch
    (saved <- getItem_COOKING_HISTORY ;;
     match saved with
     | Absent => ret []
     | Unparsable => throw
     | Json history => ret history
     end)
    (ret []).

Definition addToCookingHistory (recipeId' : string) (rating' : option JS.number)
    (notes' : option string) : Async unit :=
  try_catch
    (history <- getCookingHistory ;;
     now <- Date_toISOString ;;
     let newEntry := mkHistory recipeId' now rating' notes' in
     let updatedHistory :=
       newEntry ::
       filter (fun h => negb (String.eqb (recipeId h) recipeId')) history in
     setItem_COOKING_HISTORY updatedHistory)
    (ret tt).

Definition checkDietaryCompliance (recipe : Recipe)
    (dietaryRestrictions : list string) : bool :=
  if JS.Array_includes dietaryRestrictions "vegetarian"
     && JS.not_flag (vegetarian recipe) then false
  else if JS.Array_includes dietaryRestrictions "vegan"
          && JS.not_flag (vegan recipe) then false
  else if JS.Array_includes dietaryRestrictions "glutenFree"
          && JS.not_flag (glutenFree recipe) then false
  else true.

Definition estimateRecipeComplexity (recipe : Recipe) : Complexity :=
  let cookingTime := JS.or_default (readyInMinutes recipe) 30 in
  let instructionLength :=
    match instructions recipe with
    | Some text => JS.of_nat (String.length text)
    | None => 0%Q
    end in
  let ingredientCount :=
    match extendedIngredients recipe with
    | Some ings => JS.of_nat (length ings)
    | None => 0%Q
    end in
  let complexityScore :=
    (cookingTime / 10 + instructionLength / 100 + ingredientCount)%Q in
  if negb (Qle_bool 15 complexityScore) then easy
  else if negb (Qle_bool 30 complexityScore) then medium
  else hard.

Definition calculateSkillLevelBonus (recipe : Recipe) (skillLevel : SkillLevel)
    : JS.number :=
  let complexity := estimateRecipeComplexity recipe in
  match skillLevel with
  | beginner =>
      match complexity with easy => 10 | medium => 0 | hard => -10 end
  | intermediate =>
      match complexity with medium => 10 | _ => 5 end
  | advanced =>
      match complexity with hard => 15 | _ => 8 end
  end%Q.

Definition calculateRecipeScore (recipe : Recipe) (preferences : UserPreferences)
    (history : list CookingHistory) (availableIngredients : list string)
    : option JS.number :=
  let score := 0%Q in
  let score := (score + JS.or_default (healthScore recipe) 50 * 0.3)%Q in
  let score := (score + JS.or_default (spoonacularScore recipe) 50 * 0.2)%Q in
  let recipeIngredients := recipeIngredientsOf recipe in
  match calculateIngredientAvailability recipeIngredients availableIngredients with
  | None => None
  | Some availabilityScore =>
      let score := (score + availabilityScore * 20)%Q in
      let cookingTime := JS.or_default (readyInMinutes recipe) 60 in
      let score :=
        if Qle_bool cookingTime (maxCookingTime preferences) then
          let score := (score + 15)%Q in
          if Qle_bool cookingTime 30 then (score + 10)%Q else score
        else (score - 10)%Q in
      let favoriteBonus :=
        calculateFavoriteIngredientsBonus recipeIngredients
          (favoriteIngredients preferences) in
      let score := (score + favoriteBonus)%Q in
      let dislikedPenalty :=
        calculateDislikedIngredientsPenalty recipeIngredients
          (dislikedIngredients preferences) in
      let score := (score - dislikedPenalty)%Q in
      let historyEntry :=
        find (fun h => String.eqb (recipeId h) (id recipe)) history in
      let score :=
        match historyEntry with
        | Some entry =>
            match rating entry with
            | Some r => if JS.truthy r then (score + r * 5)%Q else score
            | None => score
            end
        | None => score
        end in
      let score :=
        if checkDietaryCompliance recipe (dietaryRestrictions preferences)
        then (score + 10)%Q else score in
      let skillBonus := calculateSkillLevelBonus recipe (skillLevel preferences) in
      let score := (score + skillBonus)%Q in
      Some (JS.Math_max 0 (JS.Math_min 100 score))
  end.

Definition getPersonalizedRecommendations (availableIngredients : list string)
    (recipes : list Recipe) : Async (option (list ScoredRecipe)) :=
  preferences <- getUserPreferences ;;
  cookingHistory <- getCookingHistory ;;
  preferences <- read preferences ;;
  let scoredRecipes :=
    scoreAll (fun recipe =>
                calculateRecipeScore recipe preferences cookingHistory
                                     availableIngredients)
             recipes in
  ret (option_map (JS.sort byPersonalScore) scoredRecipes).

Definition complementaryMap : list (string * list string) :=
  [ ("tomato", ["basil"; "mozzarella"; "garlic"; "olive oil"]);
    ("chicken", ["rosemary"; "thyme"; "lemon"; "garlic"]);
    ("pasta", ["parmesan"; "basil"; "garlic"; "olive oil"]);
    ("rice", ["soy sauce"; "ginger"; "scallions"; "sesame oil"]);
    ("beef", ["onion"; "garlic"; "worcestershire sauce"; "mushrooms"]);
    ("salmon", ["dill"; "lemon"; "capers"; "asparagus"]);
    ("potato", ["rosemary"; "thyme"; "garlic"; "butter"]);
    ("avocado", ["lime"; "cilantro"; "jalapeño"; "red onion"]) ].

Definition getComplementaryIngredients (ingredients : list string) : list string :=
  complementaryOver complementaryMap ingredients.

Definition getSuggestedIngredients (currentIngredients : list string)
    : Async (list string) :=
  preferences <- getUserPreferences ;;
  history <- getCookingHistory ;;
  preferences <- read preferences ;;
  ret (suggestFrom complementaryMap preferences currentIngredients).

(** The two branches of [updateIngredientPreference], on the fields of the
    object that [preferences] refers to. *)
Definition applyIngredientPreference (ingredient : string) (liked : bool)
    (preferences : UserPreferences) : UserPreferences :=
  if liked then
    let favorites :=
      if negb (JS.Array_includes (favoriteIngredients preferences) ingredient)
      then favoriteIngredients preferences ++ [ingredient]
      else favoriteIngredients preferences in
    let disliked :=
      filter (fun ing => negb (String.eqb ing ingredient))
             (dislikedIngredients preferences) in
    mkPreferences (dietaryRestrictions preferences) favorites disliked
                  (cuisinePreferences preferences) (maxCookingTime preferences)
                  (skillLevel preferences)
  else
    let disliked :=
      if negb (JS.Array_includes (dislikedIngredients preferences) ingredient)
      then dislikedIngredients preferences ++ [ingredient]
      else dislikedIngredients preferences in
    let favorites :=
      filter (fun ing => negb (String.eqb ing ingredient))
             (favoriteIngredients preferences) in
    mkPreferences (dietaryRestrictions preferences) favorites disliked
                  (cuisinePreferences preferences) (maxCookingTime preferences)
                  (skillLevel preferences).

Definition updateIngredientPreference (ingredient : string) (liked : bool)
    : Async unit :=
  preferences <- getUserPreferences ;;
  preferences <- mutate (applyIngredientPreference ingredient liked) preferences ;;
  updateUserPreferences (upcast preferences).

End Service.

(* ===================================================================== *)
(** ** Vocabulary of the properties *)
(* ===================================================================== *)

(** [Math.max(0, Math.min(100, score))]. *)
Definition clamp (score : JS.number) : JS.number :=
  JS.Math_max 0 (JS.Math_min 100 score).

(** The preferences a caller works with: [getUserPreferences], then its
    fields. *)
Definition loadPreferences : Async UserPreferences :=
  preferences <- getUserPreferences ;; read preferences.

(** The object [getUserPreferences] hands out in a world, in closed form (see
    [getUserPreferences_eq]). *)
Definition preferencesRef (w : World) : Obj UserPreferences :=
  if hd false (rejections w) then Shared
  else match preferencesItem w with
       | Json p => Own p
       | _ => Shared
       end.

Definition deref (w : World) (o : Obj UserPreferences) : UserPreferences :=
  match o with Shared => defaultPreferences w | Own p => p end.

(** One storage call later. *)
Definition afterCall (w : World) : World := set_rejections (tl (rejections w)) w.

(** The history [getCookingHistory] hands out in a world, in closed form
    (see [getCookingHistory_eq]). *)
Definition historyOf (w : World) : list CookingHistory :=
  if hd false (rejections w) then []
  else match cookingHistoryItem w with
       | Json history => history
       | _ => []
       end.

(** The world [updateIngredientPreference] leaves, in closed form (see
    [updateIngredientPreference_eq]): the first read picks the object, the
    change is made in place, the second read is ignored by the spread, and the
    write stores the changed fields unless it is rejected. *)
Definition afterUpdate (ingredient : string) (liked : bool) (w : World) : World :=
  let change := Service.applyIngredientPreference ingredient liked in
  let w1 := afterCall w in
  let w2 :=
    match preferencesRef w with
    | Shared => set_defaultPreferences (change (defaultPreferences w)) w1
    | Own _ => w1
    end in
  let updated :=
    match preferencesRef w with
    | Shared => change (defaultPreferences w)
    | Own p => change p
    end in
  let w3 := afterCall w2 in
  if hd false (rejections w3) then afterCall w3
  else set_preferencesItem (Json updated) (afterCall w3).

(** [a] may stand before [b] in a ranking. *)
Definition before (a b : ScoredRecipe) : Prop :=
  (personalScore b <= personalScore a)%Q.

(** [r] carries the score that [score] gives its recipe. *)
Definition scoredBy (score : Recipe -> option JS.number) (r : ScoredRecipe)
    : Prop :=
  score (base r) = Some (personalScore r).

(** Adjacent elements of a ranking are in non-increasing score order. *)
Definition descending (ranked : list ScoredRecipe) : Prop :=
  forall i a b,
    nth_error ranked i = Some a ->
    nth_error ranked (S i) = Some b ->
    (personalScore b <= personalScore a)%Q.

(** The spec's wording, "[A] is a case-insensitive substring of [B]". *)
Definition ci_substring (A B : string) : Prop :=
  exists pre post,
    JS.toLowerCase B = (pre ++ JS.toLowerCase A ++ post)%string.

(** The symmetric rule: either name is a case-insensitive substring of the
    other. *)
Definition symmetricMatch (A B : string) : Prop :=
  ci_substring A B \/ ci_substring B A.

(** No ingredient is both a favorite and disliked. *)
Definition consistent (p : UserPreferences) : Prop :=
  forall x, ~ (In x (favoriteIngredients p) /\ In x (dislikedIngredients p)).

(** Both objects a read can hand out are consistent. *)
Definition storeConsistent (w : World) : Prop :=
  consistent (defaultPreferences w) /\
  forall p, preferencesItem w = Json p -> consistent p.

(** A sequence of [updateIngredientPreference] calls. *)
Fixpoint recordAll (calls : list (string * bool)) : Async unit :=
  match calls with
  | [] => ret tt
  | (ingredient, liked) :: rest =>
      Service.updateIngredientPreference ingredient liked ;;; recordAll rest
  end.


(** First occurrences of [l] that are not in [seen], in order. *)
Fixpoint firstOccurrences (seen l : list string) : list string :=
  match l with
  | [] => []
  | x :: l' =>
      if JS.Array_includes seen x then firstOccurrences seen l'
      else x :: firstOccurrences (seen ++ [x]) l'
  end.

(** Complementary candidates, current ingredient by current ingredient, and
    for each one the table entries whose key it contains, in table order. *)
Definition complementaryByIngredient
    (complementaryMap : list (string * list string))
    (currentIngredients : list string) : list string :=
  flat_map
    (fun ingredient =>
       flat_map
         (fun entry =>
            if JS.includes (JS.toLowerCase ingredient) (fst entry)
            then snd entry else [])
         complementaryMap)
    currentIngredients.

(** The spec's wording, "complementary matches in table-definition order":
    entry by entry, the entries whose key some current ingredient contains. *)
Definition complementaryInTableOrder
    (complementaryMap : list (string * list string))
    (currentIngredients : list string) : list string :=
  flat_map
    (fun entry =>
       if existsb (fun ingredient =>
                     JS.includes (JS.toLowerCase ingredient) (fst entry))
                  currentIngredients
       then snd entry else [])
    complementaryMap.

(** Favorites first, then the given complementary candidates; duplicates
    dropped, existing and disliked names filtered out, at most 8 kept. *)
Definition suggestionsInOrder (complementary : list string)
    (preferences : UserPreferences) (currentIngredients : list string)
    : list string :=
  firstn 8
    (filter (keepSuggestion currentIngredients (dislikedIngredients preferences))
            (firstOccurrences []
               (favoriteIngredients preferences ++ complementary))).

(** The cooking-time term of the score. *)
Definition timeFit (recipe : Recipe) (preferences : UserPreferences) : JS.number :=
  let cookingTime := JS.or_default (readyInMinutes recipe) 60 in
  if Qle_bool cookingTime (maxCookingTime preferences)
  then (if Qle_bool cookingTime 30 then 25 else 15)
  else (-10)%Q.

(** The history term of the score. *)
Definition historyBonus (recipe : Recipe) (history : list CookingHistory)
    : JS.number :=
  match find (fun h => String.eqb (recipeId h) (id recipe)) history with
  | Some entry =>
      match rating entry with
      | Some r => if JS.truthy r then (r * 5)%Q else 0
      | None => 0
      end
  | None => 0
  end.

(** The dietary term of the score. *)
Definition dietaryBonus (recipe : Recipe) (preferences : UserPreferences)
    : JS.number :=
  if Service.checkDietaryCompliance recipe (dietaryRestrictions preferences)
  then 10 else 0.

(** The scenario recipe: health 80, popularity 60, ready in 20 minutes,
    ingredients tomato and basil, nothing else set. *)
Definition scenarioRecipe : Recipe :=
  {| id := "1";
     healthScore := Some 80%Q;
     spoonacularScore := Some 60%Q;
     readyInMinutes := Some 20%Q;
     extendedIngredients := Some [mkIngredient "tomato"; mkIngredient "basil"];
     instructions := None;
     vegetarian := None;
     vegan := None;
     glutenFree := None |}.

(* ===================================================================== *)
(** ** Further code of the recommendation service *)
(* ===================================================================== *)

(** [record[key]] on an object literal with string keys, for a key the
    literal may or may not define. *)
Fixpoint Record_get {A : Type} (key : string) (record : list (string * A))
    : option A :=
  match record with
  | [] => None
  | (k, v) :: rest => if String.eqb k key then Some v else Record_get key rest
  end.

(** The table of [getSeasonalRecommendations]. *)
Definition seasonalIngredients : list (string * list string) :=
  [ ("winter", ["butternut squash"; "sweet potato"; "brussels sprouts";
                "cranberries"; "pomegranate"]);
    ("spring", ["asparagus"; "artichoke"; "peas"; "strawberries"; "rhubarb"]);
    ("summer", ["tomatoes"; "corn"; "zucchini"; "peaches"; "berries"]);
    ("fall", ["pumpkin"; "apples"; "pears"; "root vegetables"; "persimmons"]) ].

(** [getSeasonalRecommendations], as a function of
    [new Date().getMonth()]. *)
Definition getSeasonalRecommendations (currentMonth : nat) : list string :=
  let season :=
    if existsb (Nat.eqb currentMonth) [11; 0; 1]%nat then "winter"
    else if existsb (Nat.eqb currentMonth) [2; 3; 4]%nat then "spring"
    else if existsb (Nat.eqb currentMonth) [5; 6; 7]%nat then "summer"
    else "fall" in
  match Record_get season seasonalIngredients with
  | Some names => names
  | None => []
  end.

(* ===================================================================== *)
(** ** [GroceryDeliveryService] *)
(* ===================================================================== *)

Module Grocery.

(** [estimatedPrice] is [None] when the field is absent or not a number. *)
Record GroceryItem := mkItem {
  name : string;
  quantity : JS.number;
  unit : string;
  estimatedPrice : option JS.number;
  category : option string
}.

Record DeliveryProvider := mkProvider {
  id : string;
  provider_name : string;
  estimatedTime : string;
  serviceFee : JS.number;
  minOrder : JS.number;
  available : bool
}.

Record DeliveryQuote := mkQuote {
  provider : DeliveryProvider;
  items : list GroceryItem;
  subtotal : JS.number;
  deliveryFee : JS.number;
  quote_serviceFee : JS.number;
  total : JS.number;
  estimatedDelivery : string
}.

Definition instacart : DeliveryProvider :=
  mkProvider "instacart" "Instacart" "10-30 min" 3.99 10 true.
Definition amazon_fresh : DeliveryProvider :=
  mkProvider "amazon_fresh" "Amazon Fresh" "15-25 min" 4.95 35 true.
Definition uber_eats : DeliveryProvider :=
  mkProvider "uber_eats" "Uber Eats Grocery" "20-35 min" 2.99 15 true.

Definition providers : list DeliveryProvider :=
  [instacart; amazon_fresh; uber_eats].

Definition mockPrices : list (string * JS.number) :=
  [ ("tomato", 1.50); ("onion", 0.89); ("garlic", 1.25);
    ("chicken breast", 8.99); ("ground beef", 6.99); ("milk", 3.49);
    ("cheese", 4.99); ("rice", 2.99); ("pasta", 1.99); ("olive oil", 5.99);
    ("eggs", 2.89); ("butter", 3.99); ("flour", 2.49); ("salt", 1.29);
    ("pepper", 2.99) ]%Q.

(** The lower-case keys that an object literal inherits: looking one of them
    up yields a function or an object, not a price. *)
Definition inheritedKeys : list string := ["constructor"; "__proto__"].

(** [this.mockPrices[itemName.toLowerCase()] || 2.99], times the quantity;
    [None] when the product is not a number. *)
Definition getEstimatedPrice (itemName : string) (quantity' : JS.number)
    : option JS.number :=
  let key := JS.toLowerCase itemName in
  match Record_get key mockPrices with
  | Some price => Some (JS.or_default (Some price) 2.99 * quantity')%Q
  | None =>
      if JS.Array_includes inheritedKeys key then None
      else Some (2.99 * quantity')%Q
  end.

(** [items.map(item => ({ ...item, estimatedPrice: ... }))]. *)
Definition priceItems (items' : list GroceryItem) : list GroceryItem :=
  map (fun item =>
         mkItem (name item) (quantity item) (unit item)
                (getEstimatedPrice (name item) (quantity item))
                (category item))
      items'.

(** [pricedItems.reduce((sum, item) => sum + (item.estimatedPrice || 0), 0)]. *)
Definition sumPrices (pricedItems : list GroceryItem) : JS.number :=
  fold_left (fun sum item => (sum + JS.or_default (estimatedPrice item) 0)%Q)
            pricedItems 0%Q.

(** [(a, b) => a.total - b.total]. *)
Definition byTotal (a b : DeliveryQuote) : JS.number := (total a - total b)%Q.

(** [getQuotes] once the simulated delay has passed. *)
Definition getQuotes (items' : list GroceryItem) : list DeliveryQuote :=
  let quotes :=
    fold_left
      (fun quotes provider' =>
         if negb (available provider') then quotes
         else
           let pricedItems := priceItems items' in
           let subtotal' := sumPrices pricedItems in
           if negb (Qle_bool (minOrder provider') subtotal') then quotes
           else
             let deliveryFee' :=
               if negb (Qle_bool subtotal' 50) then 0%Q else 5.99%Q in
             let total' := (subtotal' + deliveryFee' + serviceFee provider')%Q in
             quotes ++ [mkQuote provider' pricedItems subtotal' deliveryFee'
                                (serviceFee provider') total'
                                (estimatedTime provider')])
      providers [] in
  JS.sort byTotal quotes.

Inductive TrackingStatus := preparing | picked_up | on_the_way | delivered.

(** [statuses[Math.floor(Math.random() * statuses.length)]] of [trackOrder],
    as a function of the value [Math.random()] returns; [None] is
    [undefined]. *)
Definition trackOrderStatus (random : JS.number) : option TrackingStatus :=
  let statuses := [preparing; picked_up; on_the_way] in
  let index := Qfloor (random * JS.of_nat (length statuses))%Q in
  if (index <? 0)%Z then None else nth_error statuses (Z.to_nat index).

End Grocery.

(* ===================================================================== *)
(** ** The home screen (src/app/index.tsx) *)
(* ===================================================================== *)

Module Home.

Record FridgeItem := mkFridgeItem {
  id : string;
  name : string;
  quantity : JS.number;
  unit : string;
  expiryDate : option string;
  category : string
}.

(** The component state [loadDashboardData] writes. *)
Record State := mkState {
  fridgeItems : list FridgeItem;
  suggestedIngredients : list string;
  loading : bool
}.

(** [loadDashboardData], given what the key ['fridgeItems'] holds: the
    [try] block, its [catch], and [finally { setLoading(false) }]. *)
Definition loadDashboardData (savedFridge : Item (list FridgeItem))
    (state : State) : Async State :=
  fun w =>
    match storageCall w with
    | (Throws, w1) =>
        (Returns (mkState (fridgeItems state) (suggestedIngredients state) false),
         w1)
    | (Returns _, w1) =>
        match savedFridge with
        | Json items =>
            let ingredientNames := map name items in
            match Engine.getSuggestedIngredients ingredientNames w1 with
            | (Returns suggestions, w2) =>
                (Returns (mkState items suggestions false), w2)
            | (Throws, w2) =>
                (Returns (mkState items (suggestedIngredients state) false), w2)
            end
        | _ =>
            (Returns (mkState (fridgeItems state) (suggestedIngredients state)
                              false), w1)
        end
    end.

End Home.

(* ===================================================================== *)
(** ** Recipe of the day ([RecommendationService.getRecipeOfTheDay]) *)
(* ===================================================================== *)

Module Daily.

(** The JSON object [{ date, recipe }] kept under ['recipeOfTheDay']. *)
Record Cached := mkCached {
  date : string;
  recipe : Recipe
}.

(** What the call depends on besides the world: [new Date().toDateString()],
    the API key, what the key ['recipeOfTheDay'] holds, and the network, as
    the function from the requested URL to [data.recipes?.[0]] ([Throws] when
    [fetch] or [response.json()] fails, [None] when there is no recipe). *)
Record Env := mkEnv {
  today : string;
  apiKey : string;
  savedData : Item Cached;
  firstRecipe : string -> Completion (option Recipe)
}.

(** What the call leaves: the value returned ([None] is [null] or
    [undefined]), what ['recipeOfTheDay'] then holds, and the URLs
    requested. *)
Record Outcome := mkOutcome {
  returned : option Recipe;
  cache : Item Cached;
  requested : list string
}.

Definition dietParamOf (dietaryRestrictions' : list string) : string :=
  let dietParam := "" in
  let dietParam :=
    if JS.Array_includes dietaryRestrictions' "vegetarian"
    then "&diet=vegetarian" else dietParam in
  let dietParam :=
    if JS.Array_includes dietaryRestrictions' "vegan"
    then "&diet=vegan" else dietParam in
  dietParam.

Definition urlFor (env : Env) (dietParam : string) : string :=
  ("https://api.spoonacular.com/recipes/random?number=1&apiKey="
   ++ apiKey env ++ dietParam)%string.

(** The part of [getRecipeOfTheDay] after the cache did not answer. *)
Definition fetchNew (env : Env) : Async Outcome :=
  fun w1 =>
    match getUserPreferences w1 with
    | (Throws, w2) => (Returns (mkOutcome None (savedData env) []), w2)
    | (Returns preferences, w2) =>
        match read preferences w2 with
        | (Throws, w3) => (Returns (mkOutcome None (savedData env) []), w3)
        | (Returns preferences, w3) =>
            let url := urlFor env (dietParamOf (dietaryRestrictions preferences)) in
            match firstRecipe env url with
            | Throws => (Returns (mkOutcome None (savedData env) [url]), w3)
            | Returns None =>
                (Returns (mkOutcome None (savedData env) [url]), w3)
            | Returns (Some recipe') =>
                match storageCall w3 with
                | (Throws, w4) =>
                    (Returns (mkOutcome None (savedData env) [url]), w4)
                | (Returns _, w4) =>
                    (Returns (mkOutcome (Some recipe')
                                        (Json (mkCached (today env) recipe'))
                                        [url]), w4)
                end
            end
        end
    end.

Definition getRecipeOfTheDay (env : Env) : Async Outcome :=
  fun w =>
    match storageCall w with
    | (Throws, w1) => (Returns (mkOutcome None (savedData env) []), w1)
    | (Returns _, w1) =>
        match savedData env with
        | Unparsable => (Returns (mkOutcome None (savedData env) []), w1)
        | Json saved =>
            if String.eqb (date saved) (today env)
            then (Returns (mkOutcome (Some (recipe saved)) (savedData env) []),
                  w1)
            else fetchNew env w1
        | Absent => fetchNew env w1
        end
    end.

End Daily.

(* ===================================================================== *)
(** ** Placing an order ([GroceryDeliveryService.placeOrder]) *)
(* ===================================================================== *)

Module Ordering.



(** The [orderData] object. *)
Record Order := mkOrder {
  id : string;
  provider : string;
  items : list Grocery.GroceryItem;
  total : JS.number;
  placedAt : string;
  estimatedDelivery : string;
  status : string
}.


(** What the call depends on besides the world: the value of
    [Math.random()], [Date.now()] in decimal, what the key ['orders'] holds,
    and the messages of the errors that a rejected read, a failed parse and a
    rejected write throw ([None] when the thrown value is not an [Error]). *)
Record Env := mkEnv {
  random : JS.number;
  now : string;
  savedOrders : Item (list Order);
  readError : option string;
  parseError : option string;
  writeError : option string
}.



End Ordering.

(* ===================================================================== *)
(** ** Vocabulary of the further properties *)
(* ===================================================================== *)

(** How many recipe ingredients some name of [wanted] matches under [rule]. *)
Definition matchCount (rule : string -> string -> bool)
    (recipeIngredients wanted : list string) : nat :=
  length (filter (fun recipeIng => existsb (rule recipeIng) wanted)
                 recipeIngredients).

(** The base-quality term of the score. *)
Definition baseQuality (recipe : Recipe) : JS.number :=
  (JS.or_default (healthScore recipe) 50 * 0.3
   + JS.or_default (spoonacularScore recipe) 50 * 0.2)%Q.

(** Complexity classes in increasing order. *)
Definition complexityRank (c : Complexity) : nat :=
  match c with easy => 0 | medium => 1 | hard => 2 end.

(** [recipe.instructions?.length || 0] and
    [recipe.extendedIngredients?.length || 0]. *)
Definition instructionLength (recipe : Recipe) : nat :=
  match instructions recipe with Some text => String.length text | None => 0 end.
Definition ingredientCount (recipe : Recipe) : nat :=
  match extendedIngredients recipe with Some ings => length ings | None => 0 end.

(** At most one stored history entry per recipe id. *)
Definition historyConsistent (w : World) : Prop :=
  forall history, cookingHistoryItem w = Json history ->
                  NoDup (map recipeId history).

(** A sequence of [addToCookingHistory] calls. *)
Fixpoint cookAll (events : list (string * option JS.number * option string))
    : Async unit :=
  match events with
  | [] => ret tt
  | (rid, rating', notes') :: rest =>
      Service.addToCookingHistory rid rating' notes' ;;; cookAll rest
  end.


(** Nothing that persists has changed between two worlds: the default
    object, the stored preferences and the stored history. *)
Definition sameStore (w w' : World) : Prop :=
  defaultPreferences w' = defaultPreferences w /\
  preferencesItem w' = preferencesItem w /\
  cookingHistoryItem w' = cookingHistoryItem w.

(** [c] is a complement that [complementaryMap] gives for some key that some
    of the ingredients contains. *)
Definition complements (complementaryMap : list (string * list string))
    (ingredients : list string) (c : string) : Prop :=
  exists ingredient key values,
    In ingredient ingredients /\
    In (key, values) complementaryMap /\
    JS.includes (JS.toLowerCase ingredient) key = true /\
    In c values.

(** The subtotal of a basket: the sum of the estimated prices of its items. *)
Definition basketSubtotal (items : list Grocery.GroceryItem) : JS.number :=
  Grocery.sumPrices (Grocery.priceItems items).

(** The delivery fee for a subtotal. *)
Definition deliveryFeeFor (subtotal : JS.number) : JS.number :=
  if negb (Qle_bool subtotal 50) then 0%Q else 5.99%Q.

(** The providers that quote for a subtotal, cheapest first. *)
Definition quotingProviders (subtotal : JS.number)
    : list Grocery.DeliveryProvider :=
  if negb (Qle_bool 10 subtotal) then []
  else if negb (Qle_bool 15 subtotal) then [Grocery.instacart]
  else if negb (Qle_bool 35 subtotal)
       then [Grocery.uber_eats; Grocery.instacart]
  else [Grocery.uber_eats; Grocery.instacart; Grocery.amazon_fresh].

(** The quote a provider gives for a basket. *)
Definition quoteOf (items : list Grocery.GroceryItem)
    (provider : Grocery.DeliveryProvider) : Grocery.DeliveryQuote :=
  Grocery.mkQuote provider (Grocery.priceItems items) (basketSubtotal items)
    (deliveryFeeFor (basketSubtotal items)) (Grocery.serviceFee provider)
    (basketSubtotal items + deliveryFeeFor (basketSubtotal items)
     + Grocery.serviceFee provider)%Q
    (Grocery.estimatedTime provider).

(** A world whose stored preferences list both "vegetarian" and "vegan", and
    an environment with nothing cached whose network answers with the
    scenario recipe. *)
Definition veganWorld : World :=
  mkWorld initialDefaultPreferences
          (Json (mkPreferences ["vegetarian"; "vegan"] [] [] [] 60 beginner))
          Absent [] "2024-01-01T08:00:00.000Z".
Definition uncachedEnv : Daily.Env :=
  Daily.mkEnv "Mon Jan 01 2024" "KEY" Absent
              (fun _ => Returns (Some scenarioRecipe)).


(** The preferences with every favorite and disliked name in lower case. *)
Definition lowerCased (p : UserPreferences) : UserPreferences :=
  mkPreferences (dietaryRestrictions p)
                (map JS.toLowerCase (favoriteIngredients p))
                (map JS.toLowerCase (dislikedIngredients p))
                (cuisinePreferences p) (maxCookingTime p) (skillLevel p).

(* ===================================================================== *)
(** ** Numbers and the score range *)
(* ===================================================================== *)

Lemma clamp_range (x : JS.number) : (0 <= clamp x /\ clamp x <= 100)%Q.
Proof.
  unfold clamp, JS.Math_max, JS.Math_min.
  destruct (Qle_bool 100 x) eqn:Hx.
  - destruct (Qle_bool 0 100) eqn:H0; [split; [discriminate | apply Qle_refl] |].
    discriminate.
  - destruct (Qle_bool 0 x) eqn:H0.
    + apply Qle_bool_iff in H0. split; [exact H0 |].
      destruct (Qlt_le_dec x 100) as [Hlt | Hge].
      * apply Qlt_le_weak; exact Hlt.
      * apply Qle_bool_iff in Hge. congruence.
    + split; [apply Qle_refl | discriminate].
Qed.

Lemma of_nat_nonzero (n : nat) : n <> 0%nat -> Qeq_bool (JS.of_nat n) 0 = false.
Proof.
  intros Hn. destruct (Qeq_bool (JS.of_nat n) 0) eqn:E; [| reflexivity].
  apply Qeq_bool_iff in E. unfold JS.of_nat, Qeq in E. simpl in E. lia.
Qed.

(** The availability fraction is always a finite number: the division is
    only reached with a non-zero divisor. *)
Lemma availability_defined (recipeIngredients availableIngredients : list string) :
  exists fraction,
    calculateIngredientAvailability recipeIngredients availableIngredients
    = Some fraction.
Proof.
  unfold calculateIngredientAvailability.
  destruct (length recipeIngredients =? 0)%nat eqn:E.
  - eexists; reflexivity.
  - apply Nat.eqb_neq in E. unfold JS.div.
    rewrite (of_nat_nonzero _ E). eexists; reflexivity.
Qed.

Lemma engine_score_clamped recipe preferences availableIngredients :
  exists x,
    Engine.calculateRecipeScore recipe preferences availableIngredients
    = Some (clamp x).
Proof.
  unfold Engine.calculateRecipeScore.
  destruct (availability_defined (recipeIngredientsOf recipe) availableIngredients)
    as [fraction ->].
  eexists; reflexivity.
Qed.

Lemma service_score_clamped recipe preferences history availableIngredients :
  exists x,
    Service.calculateRecipeScore recipe preferences history availableIngredients
    = Some (clamp x).
Proof.
  unfold Service.calculateRecipeScore.
  destruct (availability_defined (recipeIngredientsOf recipe) availableIngredients)
    as [fraction ->].
  eexists; reflexivity.
Qed.


(* ===================================================================== *)
(** ** The worked scenario *)
(* ===================================================================== *)

(** C4, as stated, fails on the full service: with the scenario's inputs and
    an empty history its score is not 71. *)
Lemma scenario_service_score_not_71 :
  ~ (exists s,
        Service.calculateRecipeScore scenarioRecipe initialDefaultPreferences
                                     [] ["tomato"] = Some s /\ (s == 71)%Q).
Proof.
  intros [s [Hs H71]]. vm_compute in Hs. injection Hs as <-.
  vm_compute in H71. discriminate.
Qed.

(** C4 (amended). On the scenario (health 80, popularity 60, 20 minutes,
    ingredients tomato and basil, tomato available, default preferences) the
    trimmed engine scores exactly 71 = 36 + 10 + 25 and its ranking reports
    71; the full service, with an empty history, scores exactly
    91 = 36 + 10 + 25 + 10 (no dietary restriction is violated) + 10 (an easy
    recipe for a beginner), and its ranking reports 91. *)
Theorem scenario_scores :
  forall (schedule : list bool) (now : string),
    (exists s,
        Engine.calculateRecipeScore scenarioRecipe initialDefaultPreferences
                                    ["tomato"] = Some s /\ (s == 71)%Q) /\
    (exists s,
        value_of (Engine.getPersonalizedRecommendations ["tomato"]
                                                        [scenarioRecipe])
                 (freshWorld schedule now)
        = Returns (Some [mkScored scenarioRecipe s]) /\ (s == 71)%Q) /\
    (exists s,
        Service.calculateRecipeScore scenarioRecipe initialDefaultPreferences
                                     [] ["tomato"] = Some s /\ (s == 91)%Q) /\
    (exists s,
        value_of (Service.getPersonalizedRecommendations ["tomato"]
                                                         [scenarioRecipe])
                 (freshWorld schedule now)
        = Returns (Some [mkScored scenarioRecipe s]) /\ (s == 91)%Q).
Proof.
  intros schedule now. repeat split.
  - eexists. split; [vm_compute; reflexivity | vm_compute; reflexivity].
  - destruct schedule as [| [|] rest];
      (eexists; split; [vm_compute; reflexivity | vm_compute; reflexivity]).
  - eexists. split; [vm_compute; reflexivity | vm_compute; reflexivity].
  - destruct schedule as [| [|] [| [|] rest]];
      (eexists; split; [vm_compute; reflexivity | vm_compute; reflexivity]).
Qed.

(* ===================================================================== *)
(** ** Recipes without ingredients *)
(* ===================================================================== *)

Lemma no_ingredients recipe :
  extendedIngredients recipe = None \/ extendedIngredients recipe = Some [] ->
  recipeIngredientsOf recipe = [].
Proof.
  unfold recipeIngredientsOf. intros [-> | ->]; reflexivity.
Qed.

(** C10. For a recipe whose ingredient list is empty or missing, the
    availability fraction is the number 0 (the division is never reached),
    its term adds nothing, and the score of either module is the clamped sum
    of the remaining terms, a number between 0 and 100. *)
Theorem no_ingredients_no_availability :
  forall (recipe : Recipe) (preferences : UserPreferences)
         (history : list CookingHistory) (availableIngredients : list string),
    extendedIngredients recipe = None \/ extendedIngredients recipe = Some [] ->
    calculateIngredientAvailability (recipeIngredientsOf recipe)
                                    availableIngredients = Some 0%Q /\
    (exists x,
        Engine.calculateRecipeScore recipe preferences availableIngredients
        = Some (clamp x) /\
        (x == JS.or_default (healthScore recipe) 50 * 0.3
              + JS.or_default (spoonacularScore recipe) 50 * 0.2
              + timeFit recipe preferences)%Q /\
        (0 <= clamp x)%Q /\ (clamp x <= 100)%Q) /\
    (exists x,
        Service.calculateRecipeScore recipe preferences history
                                     availableIngredients
        = Some (clamp x) /\
        (x == JS.or_default (healthScore recipe) 50 * 0.3
              + JS.or_default (spoonacularScore recipe) 50 * 0.2
              + timeFit recipe preferences
              + historyBonus recipe history
              + dietaryBonus recipe preferences
              + Service.calculateSkillLevelBonus recipe (skillLevel preferences))%Q /\
        (0 <= clamp x)%Q /\ (clamp x <= 100)%Q).
Proof.
  intros recipe preferences history availableIngredients Hnone.
  pose proof (no_ingredients recipe Hnone) as Hings.
  split; [rewrite Hings; reflexivity |]. split.
  - unfold Engine.calculateRecipeScore. rewrite Hings. cbn [calculateIngredientAvailability length Nat.eqb].
    eexists. split; [reflexivity |]. split; [| apply clamp_range].
    unfold timeFit, calculateFavoriteIngredientsBonus,
      calculateDislikedIngredientsPenalty.
    cbn [filter length]. unfold JS.of_nat. cbn [Z.of_nat inject_Z].
    destruct (Qle_bool (JS.or_default (readyInMinutes recipe) 60)
                       (maxCookingTime preferences));
      [destruct (Qle_bool (JS.or_default (readyInMinutes recipe) 60) 30) |];
      destruct (length (favoriteIngredients preferences) =? 0)%nat;
      destruct (length (dislikedIngredients preferences) =? 0)%nat; ring.
  - unfold Service.calculateRecipeScore. rewrite Hings. cbn [calculateIngredientAvailability length Nat.eqb].
    eexists. split; [reflexivity |]. split; [| apply clamp_range].
    unfold timeFit, historyBonus, dietaryBonus, calculateFavoriteIngredientsBonus,
      calculateDislikedIngredientsPenalty.
    cbn [filter length]. unfold JS.of_nat. cbn [Z.of_nat inject_Z].
    destruct (find (fun h => String.eqb (recipeId h) (id recipe)) history)
      as [entry |];
      [destruct (rating entry) as [r |]; [destruct (JS.truthy r) |] |];
      destruct (Service.checkDietaryCompliance recipe
                  (dietaryRestrictions preferences));
      destruct (Qle_bool (JS.or_default (readyInMinutes recipe) 60)
                         (maxCookingTime preferences));
      try destruct (Qle_bool (JS.or_default (readyInMinutes recipe) 60) 30);
      destruct (length (favoriteIngredients preferences) =? 0)%nat;
      destruct (length (dislikedIngredients preferences) =? 0)%nat; ring.
Qed.

Lemma no_ingredients_no_availability_witness :
  (extendedIngredients
     (mkRecipe "7" None (Some 1000000%Q) None (Some []) None None None None)
   = None \/
   extendedIngredients
     (mkRecipe "7" None (Some 1000000%Q) None (Some []) None None None None)
   = Some []) /\
  calculateIngredientAvailability
    (recipeIngredientsOf
       (mkRecipe "7" None (Some 1000000%Q) None (Some []) None None None None))
    ["tomato"] = Some 0%Q.
Proof.
  split; [right; reflexivity |].
  apply (no_ingredients_no_availability
           (mkRecipe "7" None (Some 1000000%Q) None (Some []) None None None None)
           initialDefaultPreferences [] ["tomato"]).
  right; reflexivity.
Defined.

(* ===================================================================== *)
(** ** Reading the preference store *)
(* ===================================================================== *)

Lemma getUserPreferences_eq (w : World) :
  getUserPreferences w = (Returns (preferencesRef w), afterCall w).
Proof.
  unfold getUserPreferences, try_catch, getItem_PREFERENCES, bind, storageCall,
    preferencesRef, afterCall.
  destruct (hd false (rejections w)); cbn; [reflexivity |].
  destruct (preferencesItem w); reflexivity.
Qed.

Lemma loadPreferences_eq (w : World) :
  loadPreferences w = (Returns (deref w (preferencesRef w)), afterCall w).
Proof.
  unfold loadPreferences, bind. rewrite getUserPreferences_eq.
  unfold read, deref. destruct (preferencesRef w); reflexivity.
Qed.

Lemma getCookingHistory_eq (w : World) :
  Service.getCookingHistory w = (Returns (historyOf w), afterCall w).
Proof.
  unfold Service.getCookingHistory, try_catch, getItem_COOKING_HISTORY, bind,
    storageCall, historyOf, afterCall.
  destruct (hd false (rejections w)); cbn; [reflexivity |].
  destruct (cookingHistoryItem w); reflexivity.
Qed.

(* ===================================================================== *)
(** ** Ranking *)
(* ===================================================================== *)

Section Ranking.

Variable score : Recipe -> option JS.number.

Lemma insert_perm (x : ScoredRecipe) (l : list ScoredRecipe) :
  Permutation (JS.insert byPersonalScore x l) (x :: l).
Proof.
  induction l as [| y l IH]; cbn.
  - apply Permutation_refl.
  - destruct (Qle_bool (byPersonalScore x y) 0).
    + apply Permutation_refl.
    + eapply perm_trans; [apply perm_skip, IH | apply perm_swap].
Qed.

Lemma sort_perm (l : list ScoredRecipe) :
  Permutation (JS.sort byPersonalScore l) l.
Proof.
  induction l as [| x l IH]; cbn.
  - apply perm_nil.
  - eapply perm_trans; [apply insert_perm | apply perm_skip, IH].
Qed.

Lemma insert_head (x y : ScoredRecipe) (l : list ScoredRecipe) :
  before y x -> HdRel before y l -> HdRel before y (JS.insert byPersonalScore x l).
Proof.
  intros Hyx Hl. destruct l as [| z l]; cbn.
  - constructor; exact Hyx.
  - destruct (Qle_bool (byPersonalScore x z) 0); constructor.
    + exact Hyx.
    + inversion Hl; assumption.
Qed.

Lemma insert_sorted (x : ScoredRecipe) (l : list ScoredRecipe) :
  Sorted before l -> Sorted before (JS.insert byPersonalScore x l).
Proof.
  induction l as [| y l IH]; intros Hs; cbn.
  - repeat constructor.
  - destruct (Qle_bool (byPersonalScore x y) 0) eqn:E.
    + constructor; [exact Hs |]. constructor.
      apply Qle_bool_iff in E. unfold byPersonalScore in E. unfold before.
      apply Qle_minus_iff in E. rewrite Qle_minus_iff.
      setoid_replace (personalScore x + - personalScore y)%Q
        with (0 + - (personalScore y - personalScore x))%Q by ring.
      exact E.
    + inversion Hs as [| ? ? Hl Hhd]; subst.
      constructor; [apply IH; exact Hl |].
      apply insert_head; [| exact Hhd].
      unfold before. destruct (Qlt_le_dec 0 (byPersonalScore x y)) as [Hlt | Hle].
      * unfold byPersonalScore in Hlt. apply Qlt_le_weak.
        apply Qlt_minus_iff. setoid_replace (personalScore y + - personalScore x)%Q
          with (personalScore y - personalScore x)%Q by ring.
        exact Hlt.
      * apply Qle_bool_iff in Hle. congruence.
Qed.

Lemma sort_sorted (l : list ScoredRecipe) : Sorted before (JS.sort byPersonalScore l).
Proof.
  induction l as [| x l IH]; cbn; [constructor | apply insert_sorted, IH].
Qed.

Lemma sorted_descending (l : list ScoredRecipe) : Sorted before l -> descending l.
Proof.
  induction 1 as [| x l Hs IH Hhd]; intros i a b Ha Hb.
  - destruct i; discriminate.
  - destruct i as [| i]; cbn in Ha, Hb.
    + injection Ha as <-. destruct l as [| y l]; [discriminate |].
      cbn in Hb. injection Hb as <-. inversion Hhd; assumption.
    + exact (IH i a b Ha Hb).
Qed.

Lemma scoreAll_spec (recipes : list Recipe) (scored : list ScoredRecipe) :
  scoreAll score recipes = Some scored ->
  map base scored = recipes /\ Forall (scoredBy score) scored.
Proof.
  revert scored. induction recipes as [| r recipes IH]; cbn; intros scored H.
  - injection H as <-. split; [reflexivity | constructor].
  - destruct (score r) as [s |] eqn:Hs; [| discriminate].
    destruct (scoreAll score recipes) as [rest |]; [| discriminate].
    injection H as <-. destruct (IH rest eq_refl) as [Hmap Hall].
    split; [cbn; f_equal; exact Hmap |]. constructor; [exact Hs | exact Hall].
Qed.

Lemma scoreAll_defined (recipes : list Recipe) :
  (forall r, exists s, score r = Some s) ->
  exists scored, scoreAll score recipes = Some scored.
Proof.
  intros Htotal. induction recipes as [| r recipes [rest IH]]; cbn.
  - eexists; reflexivity.
  - destruct (Htotal r) as [s ->]. rewrite IH. eexists; reflexivity.
Qed.

(** What [recipes.map(...).sort(...)] returns when every score is a number. *)
Lemma ranked_spec (recipes : list Recipe) :
  (forall r, exists s, score r = Some s) ->
  exists ranked,
    option_map (JS.sort byPersonalScore) (scoreAll score recipes) = Some ranked /\
    descending ranked /\
    Forall (fun r => score (base r) = Some (personalScore r)) ranked /\
    Permutation (map base ranked) recipes.
Proof.
  intros Htotal. destruct (scoreAll_defined recipes Htotal) as [scored Hscored].
  rewrite Hscored. cbn. eexists. split; [reflexivity |].
  destruct (scoreAll_spec recipes scored Hscored) as [Hmap Hall].
  split; [apply sorted_descending, sort_sorted |]. split.
  - eapply Permutation_Forall; [apply Permutation_sym, sort_perm | exact Hall].
  - rewrite <- Hmap. apply Permutation_map, sort_perm.
Qed.

End Ranking.

(** C2. In every world and for every list of candidate recipes and of
    available ingredients, the ranking of either module returns; what it
    returns is in non-increasing score order (each adjacent pair [(a, b)] has
    [score a >= score b]), every entry carries the score of its recipe under
    the preferences (and history) in force, and the entries are the
    candidates. *)
Theorem rank_descending :
  forall (w : World) (availableIngredients : list string)
         (recipes : list Recipe),
    (exists preferences ranked,
        value_of loadPreferences w = Returns preferences /\
        value_of (Engine.getPersonalizedRecommendations availableIngredients
                                                        recipes) w
        = Returns (Some ranked) /\
        descending ranked /\
        Forall (fun r =>
                  Engine.calculateRecipeScore (base r) preferences
                                              availableIngredients
                  = Some (personalScore r)) ranked /\
        Permutation (map base ranked) recipes) /\
    (exists preferences history ranked,
        value_of loadPreferences w = Returns preferences /\
        value_of Service.getCookingHistory (world_after getUserPreferences w)
        = Returns history /\
        value_of (Service.getPersonalizedRecommendations availableIngredients
                                                         recipes) w
        = Returns (Some ranked) /\
        descending ranked /\
        Forall (fun r =>
                  Service.calculateRecipeScore (base r) preferences history
                                               availableIngredients
                  = Some (personalScore r)) ranked /\
        Permutation (map base ranked) recipes).
Proof.
  intros w availableIngredients recipes. split.
  - pose (preferences := deref w (preferencesRef w)).
    destruct (ranked_spec
                (fun recipe => Engine.calculateRecipeScore recipe preferences
                                                           availableIngredients)
                recipes) as [ranked [Hrank [Hdesc [Hall Hperm]]]].
    { intros r.
      destruct (engine_score_clamped r preferences availableIngredients)
        as [x Hx].
      exists (clamp x); exact Hx. }
    exists preferences, ranked. split; [| split; [| auto]].
    + unfold value_of. rewrite loadPreferences_eq. reflexivity.
    + unfold value_of, Engine.getPersonalizedRecommendations, bind.
      rewrite getUserPreferences_eq. unfold read, ret. cbn.
      exact (f_equal Returns Hrank).
  - pose (preferences := deref w (preferencesRef w)).
    pose (history := historyOf (afterCall w)).
    destruct (ranked_spec
                (fun recipe => Service.calculateRecipeScore recipe preferences
                                 history availableIngredients)
                recipes) as [ranked [Hrank [Hdesc [Hall Hperm]]]].
    { intros r.
      destruct (service_score_clamped r preferences history availableIngredients)
        as [x Hx].
      exists (clamp x); exact Hx. }
    exists preferences, history, ranked.
    split; [| split; [| split; [| auto]]].
    + unfold value_of. rewrite loadPreferences_eq. reflexivity.
    + unfold value_of, world_after. rewrite getUserPreferences_eq. cbn.
      rewrite getCookingHistory_eq. reflexivity.
    + unfold value_of, Service.getPersonalizedRecommendations, bind.
      rewrite getUserPreferences_eq, getCookingHistory_eq. unfold read, ret. cbn.
      exact (f_equal Returns Hrank).
Qed.

(* ===================================================================== *)
(** ** Ingredient matching *)
(* ===================================================================== *)

Lemma prefix_spec (t s : string) :
  String.prefix t s = true <-> exists post, s = (t ++ post)%string.
Proof.
  revert s. induction t as [| c t IH]; intros [| d s]; cbn.
  - split; [intros _; exists EmptyString; reflexivity | reflexivity].
  - split; [intros _; exists (String d s); reflexivity | reflexivity].
  - split; [discriminate | intros [post H]; discriminate].
  - destruct (Ascii.ascii_dec c d) as [-> | Hneq].
    + rewrite IH. split; intros [post H]; exists post.
      * rewrite H; reflexivity.
      * injection H as H; exact H.
    + split; [discriminate | intros [post H]; injection H as Hc _; congruence].
Qed.

Lemma includes_spec (s t : string) :
  JS.includes s t = true <-> exists pre post, s = (pre ++ t ++ post)%string.
Proof.
  induction s as [| c s IH]; cbn [JS.includes].
  - rewrite orb_false_r, prefix_spec. split.
    + intros [post H]. exists EmptyString, post. exact H.
    + intros [pre [post H]]. destruct pre; [| discriminate].
      exists post. exact H.
  - rewrite orb_true_iff, prefix_spec, IH. split.
    + intros [[post H] | [pre [post H]]].
      * exists EmptyString, post. exact H.
      * exists (String c pre), post. rewrite H. reflexivity.
    + intros [[| d pre] [post H]].
      * left. exists post. exact H.
      * right. injection H as _ H. exists pre, post. exact H.
Qed.

Lemma includes_refl (s : string) : JS.includes s s = true.
Proof.
  apply includes_spec. exists EmptyString, EmptyString.
  cbn. induction s as [| c s IH]; cbn; [reflexivity | f_equal; exact IH].
Qed.

(** C3, as stated, fails for favorite and disliked matching: the symmetric
    rule relates the recipe ingredient "tomato" and the preferred name
    "Tomatoes", yet neither the favorite bonus nor the disliked penalty
    counts it. *)
Lemma preference_matching_not_symmetric :
  symmetricMatch "tomato" "Tomatoes" /\
  preferenceMatch (JS.toLowerCase "tomato") "Tomatoes" = false /\
  calculateFavoriteIngredientsBonus [JS.toLowerCase "tomato"] ["Tomatoes"] = 0%Q /\
  calculateDislikedIngredientsPenalty [JS.toLowerCase "tomato"] ["Tomatoes"] = 0%Q.
Proof.
  split; [| repeat split; reflexivity].
  left. exists EmptyString, "es". reflexivity.
Qed.

(** C3 (amended). With [A] a recipe ingredient name (lower-cased by the
    score, as the code does) and [B] the other name: availability matching
    holds iff [A] is a case-insensitive substring of [B] or [B] is one of [A];
    favorite and disliked matching hold iff the preferred name [B] is a
    case-insensitive substring of the recipe ingredient [A], in that direction
    only. *)
Theorem matching_rules :
  forall A B : string,
    (availabilityMatch (JS.toLowerCase A) B = true <-> symmetricMatch A B) /\
    (preferenceMatch (JS.toLowerCase A) B = true <-> ci_substring B A).
Proof.
  intros A B. unfold availabilityMatch, preferenceMatch, symmetricMatch,
    ci_substring.
  rewrite orb_true_iff, !includes_spec. split; reflexivity.
Qed.

(* ===================================================================== *)
(** ** Ingredient suggestions *)
(* ===================================================================== *)

Lemma Array_includes_In (arr : list string) (x : string) :
  JS.Array_includes arr x = true <-> In x arr.
Proof.
  unfold JS.Array_includes. rewrite existsb_exists. split.
  - intros [y [Hy Heq]]. apply String.eqb_eq in Heq. subst; exact Hy.
  - intros Hx. exists x. split; [exact Hx | apply String.eqb_refl].
Qed.

Lemma add_all_spec (l s : list string) :
  JS.add_all l s = s ++ firstOccurrences s l.
Proof.
  revert s. induction l as [| x l IH]; intros s; cbn.
  - rewrite app_nil_r; reflexivity.
  - unfold JS.add_all in IH. unfold JS.Set_add at 2.
    destruct (JS.Array_includes s x).
    + apply IH.
    + rewrite IH, <- app_assoc. reflexivity.
Qed.

Lemma add_all_app (l1 l2 s : list string) :
  JS.add_all (l1 ++ l2) s = JS.add_all l2 (JS.add_all l1 s).
Proof. unfold JS.add_all. apply fold_left_app. Qed.

Lemma Set_add_present (s : list string) (x : string) :
  In x s -> JS.Set_add s x = s.
Proof.
  intros Hx. unfold JS.Set_add.
  apply Array_includes_In in Hx. rewrite Hx. reflexivity.
Qed.

Lemma Set_add_incl (s : list string) (x : string) : incl (s ++ [x]) (JS.Set_add s x).
Proof.
  unfold JS.Set_add. destruct (JS.Array_includes s x) eqn:E.
  - apply Array_includes_In in E. intros y Hy.
    apply in_app_or in Hy. destruct Hy as [Hy | [<- | []]]; assumption.
  - apply incl_refl.
Qed.

(** Adding the first occurrences of a list adds what the list adds. *)
Lemma add_all_firstOccurrences (l seen s : list string) :
  incl seen s ->
  JS.add_all (firstOccurrences seen l) s = JS.add_all l s.
Proof.
  revert seen s. induction l as [| x l IH]; intros seen s Hincl; cbn.
  - reflexivity.
  - destruct (JS.Array_includes seen x) eqn:E.
    + apply Array_includes_In in E.
      rewrite (Set_add_present s x (Hincl x E)). apply IH; exact Hincl.
    + cbn. apply IH. intros y Hy. apply Set_add_incl.
      apply in_app_or in Hy. apply in_or_app.
      destruct Hy as [Hy | Hy]; [left; apply Hincl; exact Hy | right; exact Hy].
Qed.

Lemma table_pass_spec (table : list (string * list string))
    (lowerIngredient : string) (s : list string) :
  fold_left
    (fun suggestions entry =>
       if JS.includes lowerIngredient (fst entry)
       then JS.add_all (snd entry) suggestions
       else suggestions)
    table s
  = JS.add_all
      (flat_map (fun entry =>
                   if JS.includes lowerIngredient (fst entry)
                   then snd entry else [])
                table) s.
Proof.
  revert s. induction table as [| entry table IH]; intros s;
    cbn [fold_left flat_map].
  - reflexivity.
  - rewrite IH, add_all_app.
    destruct (JS.includes lowerIngredient (fst entry)); reflexivity.
Qed.

Lemma ingredient_pass_spec (table : list (string * list string))
    (ingredients s : list string) :
  fold_left
    (fun suggestions ingredient =>
       let lowerIngredient := JS.toLowerCase ingredient in
       fold_left
         (fun suggestions entry =>
            if JS.includes lowerIngredient (fst entry)
            then JS.add_all (snd entry) suggestions
            else suggestions)
         table suggestions)
    ingredients s
  = JS.add_all (complementaryByIngredient table ingredients) s.
Proof.
  unfold complementaryByIngredient. revert s.
  induction ingredients as [| ingredient ingredients IH]; intros s;
    cbn [fold_left flat_map].
  - reflexivity.
  - rewrite IH, add_all_app, table_pass_spec. reflexivity.
Qed.

Lemma complementaryOver_spec (table : list (string * list string))
    (ingredients : list string) :
  complementaryOver table ingredients
  = firstOccurrences [] (complementaryByIngredient table ingredients).
Proof.
  unfold complementaryOver.
  rewrite ingredient_pass_spec, add_all_spec. reflexivity.
Qed.

Lemma suggestFrom_spec (table : list (string * list string))
    (preferences : UserPreferences) (currentIngredients : list string) :
  suggestFrom table preferences currentIngredients
  = suggestionsInOrder (complementaryByIngredient table currentIngredients)
                       preferences currentIngredients.
Proof.
  unfold suggestFrom, suggestionsInOrder.
  rewrite complementaryOver_spec.
  rewrite add_all_firstOccurrences by (intros x []).
  rewrite <- add_all_app, add_all_spec. reflexivity.
Qed.

Lemma keepSuggestion_excludes (currentIngredients disliked : list string)
    (ing : string) :
  keepSuggestion currentIngredients disliked ing = true ->
  ~ In ing currentIngredients /\ ~ In ing disliked.
Proof.
  unfold keepSuggestion. rewrite andb_true_iff, !negb_true_iff.
  intros [Hcur Hdis]. split; intros Hin.
  - assert (existsb (fun current =>
                       JS.includes (JS.toLowerCase current) (JS.toLowerCase ing))
                    currentIngredients = true) as Hex
      by (apply existsb_exists; exists ing; split;
          [exact Hin | apply includes_refl]).
    congruence.
  - assert (existsb (fun d =>
                       JS.includes (JS.toLowerCase d) (JS.toLowerCase ing))
                    disliked = true) as Hex
      by (apply existsb_exists; exists ing; split;
          [exact Hin | apply includes_refl]).
    congruence.
Qed.

Lemma In_firstn {A : Type} (n : nat) (l : list A) (x : A) :
  In x (firstn n l) -> In x l.
Proof.
  revert l. induction n as [| n IH]; intros [| y l]; cbn; try tauto.
  intros [-> | H]; [left; reflexivity | right; apply IH; exact H].
Qed.

Lemma suggestFrom_bounded (table : list (string * list string))
    (preferences : UserPreferences) (currentIngredients : list string) :
  (length (suggestFrom table preferences currentIngredients) <= 8)%nat /\
  forall n, In n (suggestFrom table preferences currentIngredients) ->
            ~ In n currentIngredients /\
            ~ In n (dislikedIngredients preferences).
Proof.
  unfold suggestFrom. split.
  - apply firstn_le_length.
  - intros n Hn. apply In_firstn in Hn. apply filter_In in Hn.
    destruct Hn as [_ Hkeep]. apply (keepSuggestion_excludes _ _ _ Hkeep).
Qed.

Lemma engine_suggest_eq (w : World) (currentIngredients : list string) :
  value_of (Engine.getSuggestedIngredients currentIngredients) w
  = Returns (suggestFrom Engine.complementaryMap (deref w (preferencesRef w))
                         currentIngredients).
Proof.
  unfold value_of, Engine.getSuggestedIngredients, bind.
  rewrite getUserPreferences_eq. unfold read, ret, deref. cbn.
  destruct (preferencesRef w); reflexivity.
Qed.

Lemma service_suggest_eq (w : World) (currentIngredients : list string) :
  value_of (Service.getSuggestedIngredients currentIngredients) w
  = Returns (suggestFrom Service.complementaryMap (deref w (preferencesRef w))
                         currentIngredients).
Proof.
  unfold value_of, Service.getSuggestedIngredients, bind.
  rewrite getUserPreferences_eq, getCookingHistory_eq. unfold read, ret, deref.
  cbn. destruct (preferencesRef w); reflexivity.
Qed.

(** C8. In every world and for every list of current ingredients, the
    suggestions of either module have at most 8 entries, none of which is a
    member of the current ingredients or of the disliked ingredients of the
    preferences in force. *)
Theorem suggestions_bounded_and_fresh :
  forall (w : World) (currentIngredients : list string),
    exists preferences engineSuggested serviceSuggested,
      value_of loadPreferences w = Returns preferences /\
      value_of (Engine.getSuggestedIngredients currentIngredients) w
      = Returns engineSuggested /\
      value_of (Service.getSuggestedIngredients currentIngredients) w
      = Returns serviceSuggested /\
      (length engineSuggested <= 8)%nat /\
      (length serviceSuggested <= 8)%nat /\
      forall n, In n engineSuggested \/ In n serviceSuggested ->
                ~ In n currentIngredients /\
                ~ In n (dislikedIngredients preferences).
Proof.
  intros w currentIngredients.
  exists (deref w (preferencesRef w)).
  eexists. eexists.
  split; [unfold value_of; rewrite loadPreferences_eq; reflexivity |].
  split; [apply engine_suggest_eq |].
  split; [apply service_suggest_eq |].
  split; [apply suggestFrom_bounded |].
  split; [apply suggestFrom_bounded |].
  intros n [Hn | Hn]; eapply suggestFrom_bounded; exact Hn.
Qed.

(** C9, as stated, fails: with chicken before tomato among the current
    ingredients the engine suggests the chicken pairings first, whereas
    table-definition order puts the tomato pairings first. *)
Lemma suggestions_not_in_table_order :
  value_of (Engine.getSuggestedIngredients ["chicken"; "tomato"])
           (freshWorld [] "2024-01-01T00:00:00.000Z")
  = Returns ["rosemary"; "thyme"; "lemon"; "garlic"; "basil"; "mozzarella";
             "olive oil"] /\
  suggestionsInOrder
    (complementaryInTableOrder Engine.complementaryMap ["chicken"; "tomato"])
    initialDefaultPreferences ["chicken"; "tomato"]
  = ["basil"; "mozzarella"; "garlic"; "olive oil"; "rosemary"; "thyme"; "lemon"].
Proof. split; vm_compute; reflexivity. Qed.

(** C9 (amended). The suggestions of either module are, in this order: the
    favorite ingredients in favorites order, then the complementary matches
    taken current ingredient by current ingredient and, for each, in
    table-definition order of the keys it contains; each name appears at its
    first occurrence only, current and disliked names are filtered out, and
    the first 8 of what remains are returned. *)
Theorem suggestions_order :
  forall (w : World) (currentIngredients : list string),
    exists preferences,
      value_of loadPreferences w = Returns preferences /\
      value_of (Engine.getSuggestedIngredients currentIngredients) w
      = Returns (suggestionsInOrder
                   (complementaryByIngredient Engine.complementaryMap
                                              currentIngredients)
                   preferences currentIngredients) /\
      value_of (Service.getSuggestedIngredients currentIngredients) w
      = Returns (suggestionsInOrder
                   (complementaryByIngredient Service.complementaryMap
                                              currentIngredients)
                   preferences currentIngredients).
Proof.
  intros w currentIngredients. exists (deref w (preferencesRef w)).
  split; [unfold value_of; rewrite loadPreferences_eq; reflexivity |].
  split.
  - rewrite engine_suggest_eq, suggestFrom_spec. reflexivity.
  - rewrite service_suggest_eq, suggestFrom_spec. reflexivity.
Qed.

(* ===================================================================== *)
(** ** Cooking history *)
(* ===================================================================== *)


Lemma addToCookingHistory_eq (w : World) (rid : string)
    (r : option JS.number) (n : option string) :
  Service.addToCookingHistory rid r n w
  = (Returns tt,
     if hd false (rejections (afterCall w))
     then afterCall (afterCall w)
     else set_cookingHistoryItem
            (Json (mkHistory rid (clock w) r n ::
                   filter (fun h => negb (String.eqb (recipeId h) rid))
                          (historyOf w)))
            (afterCall (afterCall w))).
Proof.
  unfold Service.addToCookingHistory, try_catch, bind.
  rewrite getCookingHistory_eq.
  unfold Date_toISOString, setItem_COOKING_HISTORY, bind, storageCall, ret.
  fold (afterCall (afterCall w)).
  destruct (hd false (rejections (afterCall w))); reflexivity.
Qed.



(* ===================================================================== *)
(** ** Favorite and disliked ingredients *)
(* ===================================================================== *)

Lemma spread_as_partial (current p : UserPreferences) :
  spread current (as_partial p) = p.
Proof. destruct p; reflexivity. Qed.

Lemma updateIngredientPreference_eq (ingredient : string) (liked : bool)
    (w : World) :
  Service.updateIngredientPreference ingredient liked w
  = (Returns tt, afterUpdate ingredient liked w).
Proof.
  unfold Service.updateIngredientPreference, afterUpdate, bind.
  rewrite getUserPreferences_eq.
  destruct (preferencesRef w) as [| p]; cbn [mutate upcast];
    unfold updateUserPreferences, try_catch, bind;
    rewrite getUserPreferences_eq;
    unfold read, read_partial, setItem_PREFERENCES, bind, storageCall, ret;
    rewrite spread_as_partial;
    unfold afterCall;
    cbn [rejections set_rejections set_defaultPreferences defaultPreferences];
    destruct (hd false (tl (tl (rejections w)))); reflexivity.
Qed.

Lemma afterUpdate_rejections (ingredient : string) (liked : bool) (w : World) :
  rejections (afterUpdate ingredient liked w) = tl (tl (tl (rejections w))).
Proof.
  unfold afterUpdate.
  destruct (preferencesRef w);
    match goal with
    | |- context [if ?b then _ else _] => destruct b
    end; reflexivity.
Qed.

Lemma filter_not_In (x : string) (l : list string) :
  ~ In x (filter (fun ing => negb (String.eqb ing x)) l).
Proof.
  intros H. apply filter_In in H. destruct H as [_ H].
  rewrite String.eqb_refl in H. discriminate.
Qed.

Lemma filter_subset (x y : string) (l : list string) :
  In y (filter (fun ing => negb (String.eqb ing x)) l) -> In y l.
Proof. intros H. apply filter_In in H. tauto. Qed.

Lemma push_In (x y : string) (l : list string) :
  In y (if negb (JS.Array_includes l x) then l ++ [x] else l) ->
  y = x \/ In y l.
Proof.
  destruct (negb (JS.Array_includes l x)); [| tauto].
  intros H. apply in_app_or in H. destruct H as [H | [<- | []]]; tauto.
Qed.

Lemma push_has (x : string) (l : list string) :
  In x (if negb (JS.Array_includes l x) then l ++ [x] else l).
Proof.
  destruct (JS.Array_includes l x) eqn:E; cbn.
  - apply Array_includes_In; exact E.
  - apply in_or_app. right. left. reflexivity.
Qed.

Lemma applyIngredientPreference_consistent (ingredient : string) (liked : bool)
    (p : UserPreferences) :
  consistent p -> consistent (Service.applyIngredientPreference ingredient liked p).
Proof.
  intros Hp x [Hfav Hdis]. unfold Service.applyIngredientPreference in *.
  destruct liked; cbn [favoriteIngredients dislikedIngredients] in *.
  - apply push_In in Hfav. destruct Hfav as [-> | Hfav].
    + exact (filter_not_In _ _ Hdis).
    + apply filter_subset in Hdis. exact (Hp x (conj Hfav Hdis)).
  - apply push_In in Hdis. destruct Hdis as [-> | Hdis].
    + exact (filter_not_In _ _ Hfav).
    + apply filter_subset in Hfav. exact (Hp x (conj Hfav Hdis)).
Qed.

Lemma applyIngredientPreference_dislike (ingredient : string)
    (p : UserPreferences) :
  In ingredient
     (dislikedIngredients (Service.applyIngredientPreference ingredient false p)) /\
  ~ In ingredient
       (favoriteIngredients (Service.applyIngredientPreference ingredient false p)).
Proof.
  unfold Service.applyIngredientPreference.
  cbn [favoriteIngredients dislikedIngredients].
  split; [apply push_has | apply filter_not_In].
Qed.

Lemma preferencesRef_cases (w : World) :
  preferencesRef w = Shared \/
  exists p, preferencesRef w = Own p /\ preferencesItem w = Json p.
Proof.
  unfold preferencesRef. destruct (hd false (rejections w)); [left; reflexivity |].
  destruct (preferencesItem w) as [| | p]; [left | left | right]; try reflexivity.
  exists p. split; reflexivity.
Qed.

Lemma afterUpdate_consistent (ingredient : string) (liked : bool) (w : World) :
  storeConsistent w -> storeConsistent (afterUpdate ingredient liked w).
Proof.
  intros [Hdefault Hstored]. unfold afterUpdate.
  destruct (preferencesRef_cases w) as [-> | [p [-> Hitem]]];
    match goal with
    | |- context [if ?b then _ else _] => destruct b
    end; split; cbn.
  - apply applyIngredientPreference_consistent; exact Hdefault.
  - exact Hstored.
  - apply applyIngredientPreference_consistent; exact Hdefault.
  - intros q Hq. injection Hq as <-.
    apply applyIngredientPreference_consistent; exact Hdefault.
  - exact Hdefault.
  - exact Hstored.
  - exact Hdefault.
  - intros q Hq. injection Hq as <-.
    apply applyIngredientPreference_consistent, Hstored, Hitem.
Qed.

Lemma recordAll_consistent (calls : list (string * bool)) (w : World) :
  storeConsistent w -> storeConsistent (world_after (recordAll calls) w).
Proof.
  revert w. induction calls as [| [ingredient liked] calls IH]; intros w Hw.
  - exact Hw.
  - unfold world_after. cbn [recordAll]. unfold bind.
    rewrite updateIngredientPreference_eq.
    apply IH, afterUpdate_consistent, Hw.
Qed.

Lemma freshWorld_consistent (schedule : list bool) (now : string) :
  storeConsistent (freshWorld schedule now).
Proof.
  split; [intros x [[] _] | intros p H; discriminate].
Qed.

(** C6. Starting from preferences in which no ingredient is both favorite and
    disliked (a new device is such a start), after any sequence of
    [updateIngredientPreference] calls, whatever storage calls are rejected,
    the preferences then read have no ingredient in both sets; and after
    [updateIngredientPreference x true] followed by
    [updateIngredientPreference x false], the second write being accepted,
    the stored preferences have [x] among the disliked and not among the
    favorites. *)
Theorem ingredient_preference_exclusive :
  forall (w : World) (calls : list (string * bool)) (x : string),
    (storeConsistent w ->
     exists p,
       value_of loadPreferences (world_after (recordAll calls) w) = Returns p /\
       consistent p) /\
    (nth 5 (rejections w) false = false ->
     exists p,
       preferencesItem (world_after (recordAll [(x, true); (x, false)]) w)
       = Json p /\
       In x (dislikedIngredients p) /\ ~ In x (favoriteIngredients p)).
Proof.
  intros w calls x. split.
  - intros Hw.
    pose proof (recordAll_consistent calls w Hw) as [Hdefault Hstored].
    eexists. split; [unfold value_of; rewrite loadPreferences_eq; reflexivity |].
    unfold deref, preferencesRef.
    destruct (hd false (rejections (world_after (recordAll calls) w)));
      [exact Hdefault |].
    destruct (preferencesItem (world_after (recordAll calls) w)) eqn:Hitem;
      try exact Hdefault.
    apply Hstored. reflexivity.
  - intros Hwrite.
    unfold world_after. cbn [recordAll]. unfold bind, ret.
    rewrite !updateIngredientPreference_eq. cbn [snd].
    set (w1 := afterUpdate x true w).
    assert (hd false (tl (tl (rejections w1))) = false) as Hhd.
    { unfold w1. rewrite afterUpdate_rejections.
      destruct (rejections w) as [| a [| b [| c [| d [| e [| f rest]]]]]];
        cbn in *; auto. }
    unfold afterUpdate.
    destruct (preferencesRef w1) as [| q]; cbn [afterCall rejections set_rejections
      set_defaultPreferences]; rewrite Hhd; cbn [preferencesItem set_preferencesItem];
      eexists; (split; [reflexivity | apply applyIngredientPreference_dislike]).
Qed.

Lemma ingredient_preference_exclusive_witness :
  storeConsistent (freshWorld [false; true; true] "2024-03-03T12:00:00.000Z") /\
  nth 5 (rejections (freshWorld [false; true; true] "2024-03-03T12:00:00.000Z"))
      false = false /\
  (exists p,
      value_of loadPreferences
        (world_after (recordAll [("basil", true); ("Basil", false); ("kale", false)])
           (freshWorld [false; true; true] "2024-03-03T12:00:00.000Z"))
      = Returns p /\ consistent p) /\
  (exists p,
      preferencesItem
        (world_after (recordAll [("basil", true); ("basil", false)])
           (freshWorld [false; true; true] "2024-03-03T12:00:00.000Z"))
      = Json p /\
      In "basil" (dislikedIngredients p) /\ ~ In "basil" (favoriteIngredients p)).
Proof.
  split; [apply freshWorld_consistent |]. split; [reflexivity |].
  destruct (ingredient_preference_exclusive
              (freshWorld [false; true; true] "2024-03-03T12:00:00.000Z")
              [("basil", true); ("Basil", false); ("kale", false)] "basil")
    as [Hinvariant Hpair].
  split.
  - apply Hinvariant. apply freshWorld_consistent.
  - apply Hpair. reflexivity.
Defined.

(* ===================================================================== *)
(** ** The default preferences object *)
(* ===================================================================== *)

(** [getUserPreferences] never throws, and hands out the instance's default
    object whenever the read is rejected, nothing is stored, or the stored
    text does not parse. *)
Lemma getUserPreferences_absorbs (w : World) :
  exists o,
    value_of getUserPreferences w = Returns o /\
    (hd false (rejections w) = true \/ preferencesItem w = Absent \/
     preferencesItem w = Unparsable -> o = Shared).
Proof.
  exists (preferencesRef w).
  split; [unfold value_of; rewrite getUserPreferences_eq; reflexivity |].
  unfold preferencesRef. intros [-> | [-> | ->]]; try reflexivity;
    destruct (hd false (rejections w)); reflexivity.
Qed.

(** The engine never writes to its default object. *)
Lemma engine_keeps_default (w : World) (names : list string)
    (recipes : list Recipe) (partial : Obj PartialPreferences) :
  defaultPreferences (world_after getUserPreferences w) = defaultPreferences w /\
  defaultPreferences (world_after (updateUserPreferences partial) w)
  = defaultPreferences w /\
  defaultPreferences
    (world_after (Engine.getPersonalizedRecommendations names recipes) w)
  = defaultPreferences w /\
  defaultPreferences (world_after (Engine.getSuggestedIngredients names) w)
  = defaultPreferences w.
Proof.
  unfold world_after, updateUserPreferences, try_catch,
    Engine.getPersonalizedRecommendations, Engine.getSuggestedIngredients, bind.
  rewrite !getUserPreferences_eq.
  unfold read, read_partial, setItem_PREFERENCES, bind, storageCall, ret.
  repeat split;
    try (destruct (preferencesRef w); reflexivity).
  destruct (preferencesRef w); destruct partial;
    match goal with
    | |- context [if ?b then _ else _] => destruct b
    end; reflexivity.
Qed.

(** C5 at a failing input. On a new device, liking "basil" while the write is
    rejected leaves the storage empty, and liking it with the write accepted
    followed by a rejected read leaves a failing read; in both situations
    [getUserPreferences] hands out the default object, which now lists
    "basil" among the favorites instead of being the documented default. *)
Theorem default_preferences_mutated :
  forall now : string,
    (preferencesItem
       (world_after (Service.updateIngredientPreference "basil" true)
                    (freshWorld [false; false; true] now)) = Absent /\
     value_of loadPreferences
       (world_after (Service.updateIngredientPreference "basil" true)
                    (freshWorld [false; false; true] now))
     = Returns (mkPreferences [] ["basil"] [] [] 60 beginner)) /\
    value_of loadPreferences
      (world_after (Service.updateIngredientPreference "basil" true)
                   (freshWorld [false; false; false; true] now))
    = Returns (mkPreferences [] ["basil"] [] [] 60 beginner) /\
    mkPreferences [] ["basil"] [] [] 60 beginner <> initialDefaultPreferences.
Proof.
  intros now. repeat split; try reflexivity. discriminate.
Qed.

(* ===================================================================== *)
(** ** Worked examples *)
(* ===================================================================== *)

(** "Tomato" among the available ingredients matches the recipe ingredient
    "tomatoes, diced". *)
Example tomato_matches_diced_tomatoes :
  availabilityMatch (JS.toLowerCase "tomatoes, diced") "Tomato" = true.
Proof. reflexivity. Qed.

(** The scenario recipe with "basil" disliked loses 15 points in the engine. *)
Example scenario_with_disliked_basil :
  exists s,
    Engine.calculateRecipeScore scenarioRecipe
      (mkPreferences [] [] ["basil"] [] 60 beginner) ["tomato"] = Some s /\
    (s == 56)%Q.
Proof. eexists. split; vm_compute; reflexivity. Qed.

(** With only chicken in the fridge and no preferences, both modules suggest
    the chicken pairings. *)
Example chicken_suggestions :
  value_of (Engine.getSuggestedIngredients ["chicken"])
           (freshWorld [] "2024-01-01T00:00:00.000Z")
  = Returns ["rosemary"; "thyme"; "lemon"; "garlic"] /\
  value_of (Service.getSuggestedIngredients ["chicken"])
           (freshWorld [] "2024-01-01T00:00:00.000Z")
  = Returns ["rosemary"; "thyme"; "lemon"; "garlic"].
Proof. split; reflexivity. Qed.

(* ===================================================================== *)
(** ** The terms of the score *)
(* ===================================================================== *)

Lemma Qle_bool_false (a b : Q) : Qle_bool a b = false -> (b < a)%Q.
Proof.
  intros H. destruct (Qlt_le_dec b a) as [Hlt | Hle]; [exact Hlt |].
  apply Qle_bool_iff in Hle. congruence.
Qed.

Lemma clamp_mono (x y : JS.number) : (x <= y)%Q -> (clamp x <= clamp y)%Q.
Proof.
  intros Hxy. unfold clamp, JS.Math_max, JS.Math_min.
  destruct (Qle_bool 100 x) eqn:Hx; destruct (Qle_bool 100 y) eqn:Hy;
    try apply Qle_bool_iff in Hx; try apply Qle_bool_iff in Hy;
    try apply Qle_bool_false in Hx; try apply Qle_bool_false in Hy;
    repeat match goal with
           | |- context [Qle_bool ?a ?b] =>
               let E := fresh "E" in
               destruct (Qle_bool a b) eqn:E;
               [apply Qle_bool_iff in E | apply Qle_bool_false in E]
           end; lra.
Qed.

Lemma fraction_unfold (c n : nat) :
  (JS.of_nat c / JS.of_nat (S n))%Q
  = (Z.of_nat c * 1 # 1 * Pos.of_succ_nat n)%Q.
Proof. reflexivity. Qed.

Lemma availability_eq (recipeIngredients availableIngredients : list string) :
  calculateIngredientAvailability recipeIngredients availableIngredients
  = Some (match recipeIngredients with
          | [] => 0%Q
          | _ :: rest =>
              (JS.of_nat (matchCount availabilityMatch recipeIngredients
                                     availableIngredients)
               / JS.of_nat (S (length rest)))%Q
          end).
Proof.
  destruct recipeIngredients as [| x rest]; [reflexivity |].
  unfold calculateIngredientAvailability, JS.div.
  cbn [length Nat.eqb]. rewrite of_nat_nonzero by discriminate. reflexivity.
Qed.

Lemma filter_length_le {A : Type} (P : A -> bool) (l : list A) :
  (length (filter P l) <= length l)%nat.
Proof.
  induction l as [| x l IH]; cbn; [lia |]. destruct (P x); cbn; lia.
Qed.

Lemma filter_length_all {A : Type} (P : A -> bool) (l : list A) :
  length (filter P l) = length l <-> forall x, In x l -> P x = true.
Proof.
  induction l as [| x l IH]; cbn.
  - split; [intros _ y [] | reflexivity].
  - pose proof (filter_length_le P l) as Hle. destruct (P x) eqn:E; cbn.
    + split.
      * intros H y [<- | Hy]; [exact E | apply IH; [lia | exact Hy]].
      * intros H. f_equal. apply IH. intros y Hy. apply H. right; exact Hy.
    + split; [lia |]. intros H. specialize (H x (or_introl eq_refl)). congruence.
Qed.

Lemma filter_length_none {A : Type} (P : A -> bool) (l : list A) :
  length (filter P l) = 0%nat <-> forall x, In x l -> P x = false.
Proof.
  induction l as [| x l IH]; cbn.
  - split; [intros _ y [] | reflexivity].
  - destruct (P x) eqn:E; cbn.
    + split; [discriminate |]. intros H.
      specialize (H x (or_introl eq_refl)). congruence.
    + rewrite IH. split.
      * intros H y [<- | Hy]; [exact E | apply H; exact Hy].
      * intros H y Hy. apply H. right; exact Hy.
Qed.

Lemma filter_length_mono {A : Type} (P P' : A -> bool) (l : list A) :
  (forall x, P x = true -> P' x = true) ->
  (length (filter P l) <= length (filter P' l))%nat.
Proof.
  intros Himp. induction l as [| x l IH]; cbn; [lia |].
  destruct (P x) eqn:E.
  - rewrite (Himp x E). cbn. lia.
  - destruct (P' x); cbn; lia.
Qed.

Lemma existsb_incl {A : Type} (P : A -> bool) (l l' : list A) :
  incl l l' -> existsb P l = true -> existsb P l' = true.
Proof.
  intros Hincl H. apply existsb_exists in H. destruct H as [x [Hx HP]].
  apply existsb_exists. exists x. split; [apply Hincl; exact Hx | exact HP].
Qed.

Lemma matchCount_le (rule : string -> string -> bool)
    (recipeIngredients wanted : list string) :
  (matchCount rule recipeIngredients wanted <= length recipeIngredients)%nat.
Proof. apply filter_length_le. Qed.

Lemma matchCount_mono (rule : string -> string -> bool)
    (recipeIngredients wanted wanted' : list string) :
  incl wanted wanted' ->
  (matchCount rule recipeIngredients wanted
   <= matchCount rule recipeIngredients wanted')%nat.
Proof.
  intros Hincl. apply filter_length_mono. intros x. apply existsb_incl, Hincl.
Qed.

Lemma of_nat_le (m n : nat) : (m <= n)%nat -> (JS.of_nat m <= JS.of_nat n)%Q.
Proof.
  intros H. unfold JS.of_nat. rewrite <- Zle_Qle. lia.
Qed.

Lemma of_nat_nonneg (n : nat) : (0 <= JS.of_nat n)%Q.
Proof. apply (of_nat_le 0 n). lia. Qed.

(** X1. The availability fraction is a number between 0 and 1; it is 1
    exactly when the recipe has ingredients and each of them matches some
    available name, and 0 exactly when none of them does. *)
Theorem availability_fraction :
  forall recipeIngredients availableIngredients : list string,
    exists fraction,
      calculateIngredientAvailability recipeIngredients availableIngredients
      = Some fraction /\
      (0 <= fraction)%Q /\ (fraction <= 1)%Q /\
      ((fraction == 1)%Q <->
       recipeIngredients <> [] /\
       forall x, In x recipeIngredients ->
                 existsb (availabilityMatch x) availableIngredients = true) /\
      ((fraction == 0)%Q <->
       forall x, In x recipeIngredients ->
                 existsb (availabilityMatch x) availableIngredients = false).
Proof.
  intros r a. rewrite availability_eq. eexists. split; [reflexivity |].
  destruct r as [| x rest].
  - split; [lra |]. split; [lra |]. split.
    + split; [intros H; vm_compute in H; discriminate | intros [H _]; congruence].
    + split; [intros _ y [] | reflexivity].
  - pose proof (matchCount_le availabilityMatch (x :: rest) a) as Hle.
    cbn [length] in Hle. rewrite fraction_unfold. unfold Qle, Qeq.
    cbn [Qnum Qden]. split; [lia |]. split; [lia |]. split.
    + rewrite <- (filter_length_all
                    (fun recipeIng => existsb (availabilityMatch recipeIng) a)
                    (x :: rest)).
      fold (matchCount availabilityMatch (x :: rest) a). cbn [length].
      split; [intros H; split; [discriminate | lia] | intros [_ H]; lia].
    + rewrite <- (filter_length_none
                    (fun recipeIng => existsb (availabilityMatch recipeIng) a)
                    (x :: rest)).
      fold (matchCount availabilityMatch (x :: rest) a). lia.
Qed.

Lemma availability_mono (recipeIngredients available available' : list string)
    (f f' : JS.number) :
  incl available available' ->
  calculateIngredientAvailability recipeIngredients available = Some f ->
  calculateIngredientAvailability recipeIngredients available' = Some f' ->
  (f <= f')%Q.
Proof.
  intros Hincl. rewrite !availability_eq. intros [= <-] [= <-].
  destruct recipeIngredients as [| x rest]; [lra |].
  pose proof (matchCount_mono availabilityMatch (x :: rest) _ _ Hincl) as Hle.
  rewrite !fraction_unfold. unfold Qle. cbn [Qnum Qden]. nia.
Qed.

Lemma filter_never {A : Type} (l : list A) : filter (fun _ => false) l = [].
Proof. induction l as [| x l IH]; [reflexivity | exact IH]. Qed.

Lemma matchCount_nil (rule : string -> string -> bool)
    (recipeIngredients : list string) :
  matchCount rule recipeIngredients [] = 0%nat.
Proof. unfold matchCount. cbn [existsb]. rewrite filter_never. reflexivity. Qed.

Lemma favoriteBonus_eq (recipeIngredients favorites : list string) :
  (calculateFavoriteIngredientsBonus recipeIngredients favorites
   == JS.of_nat (matchCount preferenceMatch recipeIngredients favorites) * 8)%Q.
Proof.
  destruct favorites as [| x rest].
  - rewrite matchCount_nil. reflexivity.
  - reflexivity.
Qed.

Lemma dislikedPenalty_eq (recipeIngredients disliked : list string) :
  (calculateDislikedIngredientsPenalty recipeIngredients disliked
   == JS.of_nat (matchCount preferenceMatch recipeIngredients disliked) * 15)%Q.
Proof.
  destruct disliked as [| x rest].
  - rewrite matchCount_nil. reflexivity.
  - reflexivity.
Qed.

Lemma favoriteBonus_mono (recipeIngredients favorites favorites' : list string) :
  incl favorites favorites' ->
  (calculateFavoriteIngredientsBonus recipeIngredients favorites
   <= calculateFavoriteIngredientsBonus recipeIngredients favorites')%Q.
Proof.
  intros Hincl. rewrite !favoriteBonus_eq.
  pose proof (of_nat_le _ _ (matchCount_mono preferenceMatch recipeIngredients
                                             _ _ Hincl)).
  lra.
Qed.

Lemma dislikedPenalty_mono (recipeIngredients disliked disliked' : list string) :
  incl disliked disliked' ->
  (calculateDislikedIngredientsPenalty recipeIngredients disliked
   <= calculateDislikedIngredientsPenalty recipeIngredients disliked')%Q.
Proof.
  intros Hincl. rewrite !dislikedPenalty_eq.
  pose proof (of_nat_le _ _ (matchCount_mono preferenceMatch recipeIngredients
                                             _ _ Hincl)).
  lra.
Qed.

(** Case analysis on every test a score makes. *)
Ltac score_cases :=
  repeat match goal with
         | |- context [if ?b then _ else _] => destruct b
         | |- context [match ?x with Some _ => _ | None => _ end] => destruct x
         end.

(** The raw sums before clamping, once the availability fraction and the
    favorite and disliked terms are known. *)
Lemma engine_score_of_fraction (recipe : Recipe) (preferences : UserPreferences)
    (availableIngredients : list string) (fraction : JS.number) :
  calculateIngredientAvailability (recipeIngredientsOf recipe)
                                  availableIngredients = Some fraction ->
  exists x,
    Engine.calculateRecipeScore recipe preferences availableIngredients
    = Some (clamp x) /\
    (x == baseQuality recipe + fraction * 20 + timeFit recipe preferences
          + calculateFavoriteIngredientsBonus (recipeIngredientsOf recipe)
              (favoriteIngredients preferences)
          - calculateDislikedIngredientsPenalty (recipeIngredientsOf recipe)
              (dislikedIngredients preferences))%Q.
Proof.
  intros Hf. unfold Engine.calculateRecipeScore. rewrite Hf.
  eexists. split; [reflexivity |]. unfold baseQuality, timeFit.
  score_cases; ring.
Qed.

Lemma service_score_of_fraction (recipe : Recipe) (preferences : UserPreferences)
    (history : list CookingHistory) (availableIngredients : list string)
    (fraction : JS.number) :
  calculateIngredientAvailability (recipeIngredientsOf recipe)
                                  availableIngredients = Some fraction ->
  exists y,
    Service.calculateRecipeScore recipe preferences history availableIngredients
    = Some (clamp y) /\
    (y == baseQuality recipe + fraction * 20 + timeFit recipe preferences
          + calculateFavoriteIngredientsBonus (recipeIngredientsOf recipe)
              (favoriteIngredients preferences)
          - calculateDislikedIngredientsPenalty (recipeIngredientsOf recipe)
              (dislikedIngredients preferences)
          + historyBonus recipe history
          + dietaryBonus recipe preferences
          + Service.calculateSkillLevelBonus recipe (skillLevel preferences))%Q.
Proof.
  intros Hf. unfold Service.calculateRecipeScore. rewrite Hf.
  eexists. split; [reflexivity |].
  unfold baseQuality, timeFit, historyBonus, dietaryBonus.
  score_cases; ring.
Qed.

(** X2. The two copies of the score relate term by term: the engine's score
    is the clamped sum of base quality, 20 times the availability fraction,
    the time term, the favorite bonus and minus the disliked penalty; the
    service's score is the clamped sum of the same terms plus the history,
    dietary and skill terms. *)
Theorem score_terms :
  forall (recipe : Recipe) (preferences : UserPreferences)
         (history : list CookingHistory) (availableIngredients : list string),
    exists fraction x y,
      calculateIngredientAvailability (recipeIngredientsOf recipe)
                                      availableIngredients = Some fraction /\
      Engine.calculateRecipeScore recipe preferences availableIngredients
      = Some (clamp x) /\
      Service.calculateRecipeScore recipe preferences history
                                   availableIngredients
      = Some (clamp y) /\
      (x == baseQuality recipe + fraction * 20 + timeFit recipe preferences
            + calculateFavoriteIngredientsBonus (recipeIngredientsOf recipe)
                (favoriteIngredients preferences)
            - calculateDislikedIngredientsPenalty (recipeIngredientsOf recipe)
                (dislikedIngredients preferences))%Q /\
      (y == x + historyBonus recipe history + dietaryBonus recipe preferences
            + Service.calculateSkillLevelBonus recipe (skillLevel preferences))%Q.
Proof.
  intros recipe preferences history availableIngredients.
  destruct (availability_defined (recipeIngredientsOf recipe)
                                 availableIngredients) as [fraction Hf].
  destruct (engine_score_of_fraction recipe preferences availableIngredients
                                     fraction Hf) as [x [Hx Hxeq]].
  destruct (service_score_of_fraction recipe preferences history
                                      availableIngredients fraction Hf)
    as [y [Hy Hyeq]].
  exists fraction, x, y. repeat split; try assumption.
  rewrite Hyeq, Hxeq. ring.
Qed.

(** X3. Having more ingredients available never lowers a recipe's score, in
    either module. *)
Theorem more_available_never_lowers :
  forall (recipe : Recipe) (preferences : UserPreferences)
         (history : list CookingHistory) (available available' : list string),
    incl available available' ->
    exists s s' t t',
      Engine.calculateRecipeScore recipe preferences available = Some s /\
      Engine.calculateRecipeScore recipe preferences available' = Some s' /\
      (s <= s')%Q /\
      Service.calculateRecipeScore recipe preferences history available
      = Some t /\
      Service.calculateRecipeScore recipe preferences history available'
      = Some t' /\
      (t <= t')%Q.
Proof.
  intros recipe preferences history available available' Hincl.
  destruct (availability_defined (recipeIngredientsOf recipe) available)
    as [f Hf].
  destruct (availability_defined (recipeIngredientsOf recipe) available')
    as [f' Hf'].
  pose proof (availability_mono _ _ _ _ _ Hincl Hf Hf') as Hle.
  destruct (engine_score_of_fraction recipe preferences _ _ Hf) as [x [Hx Hxeq]].
  destruct (engine_score_of_fraction recipe preferences _ _ Hf')
    as [x' [Hx' Hxeq']].
  destruct (service_score_of_fraction recipe preferences history _ _ Hf)
    as [y [Hy Hyeq]].
  destruct (service_score_of_fraction recipe preferences history _ _ Hf')
    as [y' [Hy' Hyeq']].
  exists (clamp x), (clamp x'), (clamp y), (clamp y').
  repeat split; try assumption; apply clamp_mono; lra.
Qed.

Lemma more_available_never_lowers_witness :
  incl ["tomato"] ["basil"; "tomato"] /\
  exists s s' t t',
    Engine.calculateRecipeScore scenarioRecipe initialDefaultPreferences
                                ["tomato"] = Some s /\
    Engine.calculateRecipeScore scenarioRecipe initialDefaultPreferences
                                ["basil"; "tomato"] = Some s' /\
    (s <= s')%Q /\
    Service.calculateRecipeScore scenarioRecipe initialDefaultPreferences []
                                 ["tomato"] = Some t /\
    Service.calculateRecipeScore scenarioRecipe initialDefaultPreferences []
                                 ["basil"; "tomato"] = Some t' /\
    (t <= t')%Q.
Proof.
  assert (incl ["tomato"] ["basil"; "tomato"]) as Hincl
    by (intros x [<- | []]; right; left; reflexivity).
  split; [exact Hincl |].
  exact (more_available_never_lowers scenarioRecipe initialDefaultPreferences []
           ["tomato"] ["basil"; "tomato"] Hincl).
Defined.

(** X4. If two preference values differ only in that the second has at least
    the favorites of the first and at most its dislikes, the second never
    gives a recipe a lower score, in either module. *)
Theorem kinder_preferences_never_lower :
  forall (recipe : Recipe) (p p' : UserPreferences)
         (history : list CookingHistory) (available : list string),
    dietaryRestrictions p = dietaryRestrictions p' ->
    maxCookingTime p = maxCookingTime p' ->
    skillLevel p = skillLevel p' ->
    incl (favoriteIngredients p) (favoriteIngredients p') ->
    incl (dislikedIngredients p') (dislikedIngredients p) ->
    exists s s' t t',
      Engine.calculateRecipeScore recipe p available = Some s /\
      Engine.calculateRecipeScore recipe p' available = Some s' /\
      (s <= s')%Q /\
      Service.calculateRecipeScore recipe p history available = Some t /\
      Service.calculateRecipeScore recipe p' history available = Some t' /\
      (t <= t')%Q.
Proof.
  intros recipe p p' history available Hdiet Htime Hskill Hfav Hdis.
  destruct (availability_defined (recipeIngredientsOf recipe) available)
    as [f Hf].
  destruct (engine_score_of_fraction recipe p _ _ Hf) as [x [Hx Hxeq]].
  destruct (engine_score_of_fraction recipe p' _ _ Hf) as [x' [Hx' Hxeq']].
  destruct (service_score_of_fraction recipe p history _ _ Hf) as [y [Hy Hyeq]].
  destruct (service_score_of_fraction recipe p' history _ _ Hf)
    as [y' [Hy' Hyeq']].
  pose proof (favoriteBonus_mono (recipeIngredientsOf recipe) _ _ Hfav) as Hb.
  pose proof (dislikedPenalty_mono (recipeIngredientsOf recipe) _ _ Hdis) as Hd.
  assert (timeFit recipe p = timeFit recipe p') as Ht
    by (unfold timeFit; rewrite Htime; reflexivity).
  assert (dietaryBonus recipe p = dietaryBonus recipe p') as Hdb
    by (unfold dietaryBonus; rewrite Hdiet; reflexivity).
  rewrite Ht in Hxeq, Hyeq. rewrite Hdb, Hskill in Hyeq.
  exists (clamp x), (clamp x'), (clamp y), (clamp y').
  repeat split; try assumption; apply clamp_mono; lra.
Qed.

Lemma kinder_preferences_never_lower_witness :
  incl (favoriteIngredients (mkPreferences [] [] ["basil"] [] 60 beginner))
       (favoriteIngredients (mkPreferences [] ["Tomato"] [] [] 60 beginner)) /\
  exists s s' t t',
    Engine.calculateRecipeScore scenarioRecipe
      (mkPreferences [] [] ["basil"] [] 60 beginner) ["tomato"] = Some s /\
    Engine.calculateRecipeScore scenarioRecipe
      (mkPreferences [] ["Tomato"] [] [] 60 beginner) ["tomato"] = Some s' /\
    (s <= s')%Q /\
    Service.calculateRecipeScore scenarioRecipe
      (mkPreferences [] [] ["basil"] [] 60 beginner) [] ["tomato"] = Some t /\
    Service.calculateRecipeScore scenarioRecipe
      (mkPreferences [] ["Tomato"] [] [] 60 beginner) [] ["tomato"] = Some t' /\
    (t <= t')%Q.
Proof.
  split; [intros x [] |].
  apply (kinder_preferences_never_lower scenarioRecipe
           (mkPreferences [] [] ["basil"] [] 60 beginner)
           (mkPreferences [] ["Tomato"] [] [] 60 beginner) [] ["tomato"]);
    try reflexivity.
  - intros x [].
  - intros x [].
Defined.

Lemma skill_bonus_cases (recipe : Recipe) (level : SkillLevel) :
  (-10 <= Service.calculateSkillLevelBonus recipe level)%Q /\
  (Service.calculateSkillLevelBonus recipe level <= 15)%Q /\
  ((Service.calculateSkillLevelBonus recipe level < 0)%Q <->
   level = beginner /\ Service.estimateRecipeComplexity recipe = hard).
Proof.
  unfold Service.calculateSkillLevelBonus.
  destruct level; destruct (Service.estimateRecipeComplexity recipe);
    (split; [lra |]); (split; [lra |]);
    (split; [intros H; try lra; split; reflexivity
            | intros [H1 H2]; try discriminate; lra]).
Qed.

(** X5. The ranges of the terms of the score: the availability term lies in
    [0, 20]; the time term is -10, 15 or 25; the favorite bonus lies between
    0 and 8 per recipe ingredient and the disliked penalty between 0 and 15
    per recipe ingredient; the dietary term is 0 or 10; the skill term lies
    in [-10, 15] and is negative only for a beginner facing a hard recipe. *)
Theorem score_term_ranges :
  forall (recipe : Recipe) (preferences : UserPreferences)
         (availableIngredients : list string),
    (exists fraction,
        calculateIngredientAvailability (recipeIngredientsOf recipe)
                                        availableIngredients = Some fraction /\
        (0 <= fraction * 20)%Q /\ (fraction * 20 <= 20)%Q) /\
    (timeFit recipe preferences = (-10)%Q \/ timeFit recipe preferences = 15%Q \/
     timeFit recipe preferences = 25%Q) /\
    (0 <= calculateFavoriteIngredientsBonus (recipeIngredientsOf recipe)
            (favoriteIngredients preferences))%Q /\
    (calculateFavoriteIngredientsBonus (recipeIngredientsOf recipe)
       (favoriteIngredients preferences)
     <= 8 * JS.of_nat (length (recipeIngredientsOf recipe)))%Q /\
    (0 <= calculateDislikedIngredientsPenalty (recipeIngredientsOf recipe)
            (dislikedIngredients preferences))%Q /\
    (calculateDislikedIngredientsPenalty (recipeIngredientsOf recipe)
       (dislikedIngredients preferences)
     <= 15 * JS.of_nat (length (recipeIngredientsOf recipe)))%Q /\
    (dietaryBonus recipe preferences = 0%Q \/
     dietaryBonus recipe preferences = 10%Q) /\
    (-10 <= Service.calculateSkillLevelBonus recipe (skillLevel preferences))%Q /\
    (Service.calculateSkillLevelBonus recipe (skillLevel preferences) <= 15)%Q /\
    ((Service.calculateSkillLevelBonus recipe (skillLevel preferences) < 0)%Q <->
     skillLevel preferences = beginner /\
     Service.estimateRecipeComplexity recipe = hard).
Proof.
  intros recipe preferences availableIngredients.
  split.
  { rewrite availability_eq. eexists. split; [reflexivity |].
    destruct (recipeIngredientsOf recipe) as [| x rest]; [lra |].
    pose proof (matchCount_le availabilityMatch (x :: rest)
                              availableIngredients) as Hle.
    cbn [length] in Hle. rewrite fraction_unfold. unfold Qle, Qmult.
    cbn [Qnum Qden]. lia. }
  split.
  { unfold timeFit. score_cases; auto. }
  pose proof (matchCount_le preferenceMatch (recipeIngredientsOf recipe)
                            (favoriteIngredients preferences)) as Hf.
  pose proof (matchCount_le preferenceMatch (recipeIngredientsOf recipe)
                            (dislikedIngredients preferences)) as Hd.
  apply of_nat_le in Hf. apply of_nat_le in Hd.
  pose proof (of_nat_nonneg (matchCount preferenceMatch
                               (recipeIngredientsOf recipe)
                               (favoriteIngredients preferences))).
  pose proof (of_nat_nonneg (matchCount preferenceMatch
                               (recipeIngredientsOf recipe)
                               (dislikedIngredients preferences))).
  rewrite !favoriteBonus_eq, !dislikedPenalty_eq.
  repeat (split; [lra |]).
  split; [unfold dietaryBonus; score_cases; auto |].
  apply skill_bonus_cases.
Qed.

(* ===================================================================== *)
(** ** Dietary compliance and complexity *)
(* ===================================================================== *)

Lemma not_flag_false (flag : option bool) :
  JS.not_flag flag = false <-> flag = Some true.
Proof.
  destruct flag as [[|] |]; cbn; split; intros H; try reflexivity;
    discriminate.
Qed.

Lemma restriction_step (restrictions : list string) (tag : string)
    (flag : option bool) :
  JS.Array_includes restrictions tag && JS.not_flag flag = false <->
  (In tag restrictions -> flag = Some true).
Proof.
  rewrite andb_false_iff, not_flag_false. split.
  - intros [H | H] Hin; [| exact H].
    apply Array_includes_In in Hin. congruence.
  - intros H. destruct (JS.Array_includes restrictions tag) eqn:E.
    + right. apply H. apply Array_includes_In. exact E.
    + left. reflexivity.
Qed.

(** X6. A recipe complies with the dietary restrictions exactly when each of
    the tags "vegetarian", "vegan" and "glutenFree" that is among the
    restrictions has its flag set to true on the recipe; a missing flag
    counts as not set, and any other tag is ignored. *)
Theorem dietary_compliance_rule :
  forall (recipe : Recipe) (restrictions : list string),
    Service.checkDietaryCompliance recipe restrictions = true <->
    (In "vegetarian" restrictions -> vegetarian recipe = Some true) /\
    (In "vegan" restrictions -> vegan recipe = Some true) /\
    (In "glutenFree" restrictions -> glutenFree recipe = Some true).
Proof.
  intros recipe restrictions.
  rewrite <- !restriction_step. unfold Service.checkDietaryCompliance.
  destruct (JS.Array_includes restrictions "vegetarian"
            && JS.not_flag (vegetarian recipe));
    destruct (JS.Array_includes restrictions "vegan"
              && JS.not_flag (vegan recipe));
    destruct (JS.Array_includes restrictions "glutenFree"
              && JS.not_flag (glutenFree recipe));
    split; try (intros H; discriminate H); try (intros [H1 [H2 H3]]; discriminate);
    auto.
Qed.

Lemma div_const (a : Q) (p : positive) : (a / (Zpos p # 1) == a * (1 # p))%Q.
Proof. unfold Qdiv, Qinv. cbn. reflexivity. Qed.

Lemma complexity_eq (recipe : Recipe) :
  Service.estimateRecipeComplexity recipe
  = let complexityScore :=
      (JS.or_default (readyInMinutes recipe) 30 / 10
       + JS.of_nat (instructionLength recipe) / 100
       + JS.of_nat (ingredientCount recipe))%Q in
    if negb (Qle_bool 15 complexityScore) then easy
    else if negb (Qle_bool 30 complexityScore) then medium
    else hard.
Proof.
  unfold Service.estimateRecipeComplexity, instructionLength, ingredientCount.
  destruct (instructions recipe); destruct (extendedIngredients recipe);
    reflexivity.
Qed.

(** X7. Between two recipes with the same preparation time, the one with
    instructions at least as long and at least as many ingredients is never
    put in a lower complexity class. *)
Theorem complexity_monotone :
  forall recipe recipe' : Recipe,
    readyInMinutes recipe = readyInMinutes recipe' ->
    (instructionLength recipe <= instructionLength recipe')%nat ->
    (ingredientCount recipe <= ingredientCount recipe')%nat ->
    (complexityRank (Service.estimateRecipeComplexity recipe)
     <= complexityRank (Service.estimateRecipeComplexity recipe'))%nat.
Proof.
  intros recipe recipe' Htime Hlen Hcount.
  rewrite !complexity_eq. cbv zeta. rewrite <- Htime.
  apply of_nat_le in Hlen. apply of_nat_le in Hcount.
  generalize dependent (JS.or_default (readyInMinutes recipe) 30).
  generalize dependent (JS.of_nat (instructionLength recipe)).
  generalize dependent (JS.of_nat (instructionLength recipe')).
  generalize dependent (JS.of_nat (ingredientCount recipe)).
  generalize dependent (JS.of_nat (ingredientCount recipe')).
  intros b' b Hcount a' a Hlen t.
  assert (t / 10 + a / 100 + b <= t / 10 + a' / 100 + b')%Q as Hle
    by (rewrite !div_const; lra).
  generalize dependent (t / 10 + a / 100 + b)%Q.
  generalize dependent (t / 10 + a' / 100 + b')%Q.
  intros c' c Hle.
  destruct (Qle_bool 15 c) eqn:E1; destruct (Qle_bool 30 c) eqn:E2;
    destruct (Qle_bool 15 c') eqn:E3; destruct (Qle_bool 30 c') eqn:E4;
    cbn; try lia;
    try apply Qle_bool_iff in E1; try apply Qle_bool_iff in E2;
    try apply Qle_bool_false in E3; try apply Qle_bool_false in E4;
    exfalso; lra.
Qed.

Lemma complexity_monotone_witness :
  (instructionLength scenarioRecipe
   <= instructionLength
        (mkRecipe "2" None None (Some 20%Q)
           (Some [mkIngredient "a"; mkIngredient "b"; mkIngredient "c";
                  mkIngredient "d"; mkIngredient "e"; mkIngredient "f";
                  mkIngredient "g"; mkIngredient "h"; mkIngredient "i";
                  mkIngredient "j"; mkIngredient "k"; mkIngredient "l";
                  mkIngredient "m"])
           (Some "Chop. Fry. Serve.") None None None))%nat /\
  (complexityRank (Service.estimateRecipeComplexity scenarioRecipe)
   <= complexityRank
        (Service.estimateRecipeComplexity
           (mkRecipe "2" None None (Some 20%Q)
              (Some [mkIngredient "a"; mkIngredient "b"; mkIngredient "c";
                     mkIngredient "d"; mkIngredient "e"; mkIngredient "f";
                     mkIngredient "g"; mkIngredient "h"; mkIngredient "i";
                     mkIngredient "j"; mkIngredient "k"; mkIngredient "l";
                     mkIngredient "m"])
              (Some "Chop. Fry. Serve.") None None None)))%nat.
Proof.
  split; [cbn; lia |].
  apply complexity_monotone; [reflexivity | cbn; lia | cbn; lia].
Defined.

(* ===================================================================== *)
(** ** Updating the stored preferences *)
(* ===================================================================== *)

Lemma nth1_afterCall (w : World) :
  hd false (rejections (afterCall w)) = nth 1 (rejections w) false.
Proof. cbn. destruct (rejections w) as [| a [| b rest]]; reflexivity. Qed.

Lemma nth2_afterCall (w : World) :
  hd false (rejections (afterCall (afterCall w))) = nth 2 (rejections w) false.
Proof. cbn. destruct (rejections w) as [| a [| b [| c rest]]]; reflexivity. Qed.

Lemma updateUserPreferences_eq (partial : PartialPreferences) (w : World) :
  updateUserPreferences (Own partial) w
  = (Returns tt,
     if nth 1 (rejections w) false then afterCall (afterCall w)
     else set_preferencesItem
            (Json (spread (deref w (preferencesRef w)) partial))
            (afterCall (afterCall w))).
Proof.
  unfold updateUserPreferences, try_catch, bind.
  rewrite getUserPreferences_eq.
  unfold read, read_partial, setItem_PREFERENCES, bind, storageCall, ret.
  rewrite nth1_afterCall.
  fold (afterCall (afterCall w)). fold (deref (afterCall w) (preferencesRef w)).
  destruct (nth 1 (rejections w) false); reflexivity.
Qed.

(** X8. [updateUserPreferences] with a literal partial object never throws
    and touches neither the default object nor the cooking history; when
    its write is rejected the stored preferences stay as they were, and
    otherwise they become the preferences it read (the default object's when
    nothing usable was read) overlaid field by field with the partial
    object. *)
Theorem update_preferences_merge :
  forall (w : World) (partial : PartialPreferences),
    exists current,
      value_of loadPreferences w = Returns current /\
      value_of (updateUserPreferences (Own partial)) w = Returns tt /\
      defaultPreferences (world_after (updateUserPreferences (Own partial)) w)
      = defaultPreferences w /\
      cookingHistoryItem (world_after (updateUserPreferences (Own partial)) w)
      = cookingHistoryItem w /\
      preferencesItem (world_after (updateUserPreferences (Own partial)) w)
      = if nth 1 (rejections w) false then preferencesItem w
        else Json (spread current partial).
Proof.
  intros w partial. exists (deref w (preferencesRef w)).
  unfold value_of, world_after.
  rewrite loadPreferences_eq, updateUserPreferences_eq.
  destruct (nth 1 (rejections w) false); repeat split; reflexivity.
Qed.

(** X9. After an [updateUserPreferences] whose write is accepted, a read that
    is not rejected returns the merged preferences: every field the partial
    object gave reads back, every other field is the one read before. *)
Theorem update_then_read :
  forall (w : World) (partial : PartialPreferences) (current : UserPreferences),
    nth 1 (rejections w) false = false ->
    nth 2 (rejections w) false = false ->
    value_of loadPreferences w = Returns current ->
    value_of loadPreferences
      (world_after (updateUserPreferences (Own partial)) w)
    = Returns (spread current partial).
Proof.
  intros w partial current Hwrite Hread Hcurrent.
  unfold value_of in *. rewrite loadPreferences_eq in Hcurrent.
  injection Hcurrent as <-.
  unfold world_after. rewrite updateUserPreferences_eq, Hwrite.
  rewrite loadPreferences_eq. cbn [fst snd].
  unfold preferencesRef.
  cbn [rejections set_preferencesItem preferencesItem].
  rewrite nth2_afterCall, Hread. reflexivity.
Qed.

Lemma update_then_read_witness :
  nth 1 (rejections
           (mkWorld initialDefaultPreferences
                    (Json (mkPreferences ["vegan"] ["basil"] [] [] 45 advanced))
                    Absent [] "2024-05-05T08:00:00.000Z")) false = false /\
  value_of loadPreferences
    (world_after
       (updateUserPreferences
          (Own (mkPartial None None (Some ["kale"]) None (Some 20%Q) None)))
       (mkWorld initialDefaultPreferences
                (Json (mkPreferences ["vegan"] ["basil"] [] [] 45 advanced))
                Absent [] "2024-05-05T08:00:00.000Z"))
  = Returns (mkPreferences ["vegan"] ["basil"] ["kale"] [] 20 advanced).
Proof.
  split; [reflexivity |].
  apply (update_then_read
           (mkWorld initialDefaultPreferences
                    (Json (mkPreferences ["vegan"] ["basil"] [] [] 45 advanced))
                    Absent [] "2024-05-05T08:00:00.000Z")
           (mkPartial None None (Some ["kale"]) None (Some 20%Q) None)
           (mkPreferences ["vegan"] ["basil"] [] [] 45 advanced));
    reflexivity.
Defined.

(** X10. When the read inside [updateUserPreferences] is rejected and the
    write is accepted, the stored preferences are replaced by the default
    object overlaid with the partial object: fields stored before and not
    given again are lost. *)
Theorem update_after_failed_read_overwrites :
  forall (w : World) (partial : PartialPreferences),
    hd false (rejections w) = true ->
    nth 1 (rejections w) false = false ->
    preferencesItem (world_after (updateUserPreferences (Own partial)) w)
    = Json (spread (defaultPreferences w) partial).
Proof.
  intros w partial Hread Hwrite. unfold world_after.
  rewrite updateUserPreferences_eq, Hwrite. unfold preferencesRef.
  rewrite Hread. reflexivity.
Qed.

Lemma update_after_failed_read_overwrites_witness :
  hd false (rejections
              (mkWorld initialDefaultPreferences
                       (Json (mkPreferences ["vegan"] ["basil"] [] [] 45 advanced))
                       Absent [true; false] "2024-05-05T08:00:00.000Z")) = true /\
  preferencesItem
    (world_after
       (updateUserPreferences
          (Own (mkPartial None None None None (Some 20%Q) None)))
       (mkWorld initialDefaultPreferences
                (Json (mkPreferences ["vegan"] ["basil"] [] [] 45 advanced))
                Absent [true; false] "2024-05-05T08:00:00.000Z"))
  = Json (mkPreferences [] [] [] [] 20 beginner).
Proof.
  split; [reflexivity |].
  apply (update_after_failed_read_overwrites
           (mkWorld initialDefaultPreferences
                    (Json (mkPreferences ["vegan"] ["basil"] [] [] 45 advanced))
                    Absent [true; false] "2024-05-05T08:00:00.000Z")
           (mkPartial None None None None (Some 20%Q) None));
    reflexivity.
Defined.

(* ===================================================================== *)
(** ** More on the cooking history *)
(* ===================================================================== *)

Lemma historyOf_cases (w : World) :
  historyOf w = [] \/ cookingHistoryItem w = Json (historyOf w).
Proof.
  unfold historyOf. destruct (hd false (rejections w)); [left; reflexivity |].
  destruct (cookingHistoryItem w); [left | left | right]; reflexivity.
Qed.

Lemma NoDup_map_filter {A B : Type} (f : A -> B) (P : A -> bool) (l : list A) :
  NoDup (map f l) -> NoDup (map f (filter P l)).
Proof.
  induction l as [| x l IH]; cbn; intros H; [constructor |].
  inversion H as [| ? ? Hnotin Hrest]; subst.
  destruct (P x); cbn; [| apply IH; exact Hrest].
  constructor; [| apply IH; exact Hrest].
  intros Hin. apply Hnotin. apply in_map_iff in Hin.
  destruct Hin as [y [Hy Hin]]. apply filter_In in Hin.
  apply in_map_iff. exists y. tauto.
Qed.

Lemma upsert_NoDup (entry : CookingHistory) (history : list CookingHistory) :
  NoDup (map recipeId history) ->
  NoDup (map recipeId
           (entry :: filter (fun h => negb (String.eqb (recipeId h)
                                                       (recipeId entry)))
                            history)).
Proof.
  intros H. cbn. constructor; [| apply NoDup_map_filter; exact H].
  intros Hin. apply in_map_iff in Hin. destruct Hin as [h [Hid Hin]].
  apply filter_In in Hin. destruct Hin as [_ Hneq].
  rewrite Hid, String.eqb_refl in Hneq. discriminate.
Qed.

Lemma addToCookingHistory_consistent (w : World) (rid : string)
    (r : option JS.number) (n : option string) :
  historyConsistent w ->
  historyConsistent (world_after (Service.addToCookingHistory rid r n) w).
Proof.
  intros Hw. unfold world_after. rewrite addToCookingHistory_eq. cbn [snd].
  destruct (hd false (rejections (afterCall w))).
  - exact Hw.
  - intros history Hitem. cbn in Hitem. injection Hitem as <-.
    apply (upsert_NoDup (mkHistory rid (clock w) r n)).
    destruct (historyOf_cases w) as [-> | Hstored]; [constructor |].
    apply Hw. exact Hstored.
Qed.

Lemma cookAll_consistent
    (events : list (string * option JS.number * option string)) (w : World) :
  historyConsistent w -> historyConsistent (world_after (cookAll events) w).
Proof.
  revert w. induction events as [| [[rid r] n] events IH]; intros w Hw.
  - exact Hw.
  - unfold world_after. cbn [cookAll]. unfold bind.
    rewrite addToCookingHistory_eq.
    apply IH. pose proof (addToCookingHistory_consistent w rid r n Hw) as H.
    unfold world_after in H. rewrite addToCookingHistory_eq in H. exact H.
Qed.

(** X11. Starting from a stored history with at most one entry per recipe id
    (an empty store is one), after any sequence of [addToCookingHistory]
    calls, whatever storage calls are rejected, the history that
    [getCookingHistory] returns has at most one entry per recipe id. *)
Theorem cooking_history_one_entry_per_recipe :
  forall (w : World)
         (events : list (string * option JS.number * option string)),
    historyConsistent w ->
    exists history,
      value_of Service.getCookingHistory (world_after (cookAll events) w)
      = Returns history /\
      NoDup (map recipeId history).
Proof.
  intros w events Hw.
  pose proof (cookAll_consistent events w Hw) as Hafter.
  exists (historyOf (world_after (cookAll events) w)).
  split; [unfold value_of; rewrite getCookingHistory_eq; reflexivity |].
  destruct (historyOf_cases (world_after (cookAll events) w)) as [-> | Hstored];
    [constructor | apply Hafter; exact Hstored].
Qed.

Lemma cooking_history_one_entry_per_recipe_witness :
  historyConsistent (freshWorld [false; true; true; false]
                                "2024-06-06T18:00:00.000Z") /\
  exists history,
    value_of Service.getCookingHistory
      (world_after
         (cookAll [("42", Some 4%Q, None); ("7", None, Some "too salty");
                   ("42", Some 5%Q, None)])
         (freshWorld [false; true; true; false] "2024-06-06T18:00:00.000Z"))
    = Returns history /\
    NoDup (map recipeId history).
Proof.
  assert (historyConsistent (freshWorld [false; true; true; false]
                                        "2024-06-06T18:00:00.000Z")) as Hfresh
    by (intros history H; discriminate H).
  split; [exact Hfresh |].
  exact (cooking_history_one_entry_per_recipe
           (freshWorld [false; true; true; false] "2024-06-06T18:00:00.000Z")
           [("42", Some 4%Q, None); ("7", None, Some "too salty");
            ("42", Some 5%Q, None)] Hfresh).
Defined.

(** X12. [addToCookingHistory] never throws and never touches the stored
    preferences or the default object. When its write is rejected the stored
    history stays as it was. When its read is rejected and its write is
    accepted, the stored history becomes the new entry alone: the entries
    stored before are lost. *)
Theorem cooking_history_under_failures :
  forall (w : World) (rid : string) (r : option JS.number) (n : option string),
    value_of (Service.addToCookingHistory rid r n) w = Returns tt /\
    preferencesItem (world_after (Service.addToCookingHistory rid r n) w)
    = preferencesItem w /\
    defaultPreferences (world_after (Service.addToCookingHistory rid r n) w)
    = defaultPreferences w /\
    (nth 1 (rejections w) false = true ->
     cookingHistoryItem (world_after (Service.addToCookingHistory rid r n) w)
     = cookingHistoryItem w) /\
    (hd false (rejections w) = true ->
     nth 1 (rejections w) false = false ->
     cookingHistoryItem (world_after (Service.addToCookingHistory rid r n) w)
     = Json [mkHistory rid (clock w) r n]).
Proof.
  intros w rid r n. unfold value_of, world_after.
  rewrite addToCookingHistory_eq, nth1_afterCall. cbn [fst snd].
  split; [reflexivity |].
  split; [destruct (nth 1 (rejections w) false); reflexivity |].
  split; [destruct (nth 1 (rejections w) false); reflexivity |].
  split.
  - intros ->. reflexivity.
  - intros Hread ->. unfold historyOf. rewrite Hread. reflexivity.
Qed.

Lemma cooking_history_under_failures_witness :
  hd false (rejections
              (mkWorld initialDefaultPreferences Absent
                 (Json [mkHistory "7" "2024-01-01T09:00:00.000Z" (Some 5%Q) None])
                 [true; false] "2024-02-02T08:00:00.000Z")) = true /\
  nth 1 (rejections
           (mkWorld initialDefaultPreferences Absent
              (Json [mkHistory "7" "2024-01-01T09:00:00.000Z" (Some 5%Q) None])
              [true; false] "2024-02-02T08:00:00.000Z")) false = false /\
  cookingHistoryItem
    (world_after (Service.addToCookingHistory "42" (Some 3%Q) None)
       (mkWorld initialDefaultPreferences Absent
          (Json [mkHistory "7" "2024-01-01T09:00:00.000Z" (Some 5%Q) None])
          [true; false] "2024-02-02T08:00:00.000Z"))
  = Json [mkHistory "42" "2024-02-02T08:00:00.000Z" (Some 3%Q) None] /\
  (nth 1 (rejections (freshWorld [false; true] "2024-02-02T08:00:00.000Z"))
       false = true /\
   cookingHistoryItem
     (world_after (Service.addToCookingHistory "42" (Some 3%Q) None)
        (freshWorld [false; true] "2024-02-02T08:00:00.000Z"))
   = cookingHistoryItem (freshWorld [false; true] "2024-02-02T08:00:00.000Z")).
Proof.
  split; [reflexivity |]. split; [reflexivity |]. split.
  - apply (cooking_history_under_failures
             (mkWorld initialDefaultPreferences Absent
                (Json [mkHistory "7" "2024-01-01T09:00:00.000Z" (Some 5%Q) None])
                [true; false] "2024-02-02T08:00:00.000Z")
             "42" (Some 3%Q) None); reflexivity.
  - split; [reflexivity |].
    apply (cooking_history_under_failures
             (freshWorld [false; true] "2024-02-02T08:00:00.000Z")
             "42" (Some 3%Q) None); reflexivity.
Defined.

(** X13. Recording a rating and then scoring: after an accepted
    [addToCookingHistory] for a recipe, the history that an unrejected
    [getCookingHistory] returns gives that recipe a history term of 5 times
    the new rating (0 when no rating, or the rating 0, was given), whatever
    was recorded for it before. *)
Theorem rating_then_history_bonus :
  forall (w : World) (recipe : Recipe) (r : option JS.number)
         (n : option string),
    nth 1 (rejections w) false = false ->
    nth 2 (rejections w) false = false ->
    exists history,
      value_of Service.getCookingHistory
        (world_after (Service.addToCookingHistory (id recipe) r n) w)
      = Returns history /\
      historyBonus recipe history
      = match r with
        | Some rating' => if JS.truthy rating' then (rating' * 5)%Q else 0%Q
        | None => 0%Q
        end.
Proof.
  intros w recipe r n Hwrite Hread. eexists. unfold value_of, world_after.
  rewrite addToCookingHistory_eq, nth1_afterCall, Hwrite.
  rewrite getCookingHistory_eq. cbn [fst snd]. unfold historyOf.
  cbn [rejections cookingHistoryItem set_cookingHistoryItem].
  rewrite nth2_afterCall, Hread. split; [reflexivity |].
  unfold historyBonus. cbn [find recipeId]. rewrite String.eqb_refl.
  reflexivity.
Qed.

Lemma rating_then_history_bonus_witness :
  nth 1 (rejections
           (mkWorld initialDefaultPreferences Absent
              (Json [mkHistory "1" "2024-01-01T09:00:00.000Z" (Some 2%Q) None])
              [] "2024-02-02T08:00:00.000Z")) false = false /\
  exists history,
    value_of Service.getCookingHistory
      (world_after
         (Service.addToCookingHistory (id scenarioRecipe) (Some 5%Q) None)
         (mkWorld initialDefaultPreferences Absent
            (Json [mkHistory "1" "2024-01-01T09:00:00.000Z" (Some 2%Q) None])
            [] "2024-02-02T08:00:00.000Z"))
    = Returns history /\
    historyBonus scenarioRecipe history = (5 * 5)%Q.
Proof.
  split; [reflexivity |].
  apply (rating_then_history_bonus
           (mkWorld initialDefaultPreferences Absent
              (Json [mkHistory "1" "2024-01-01T09:00:00.000Z" (Some 2%Q) None])
              [] "2024-02-02T08:00:00.000Z")
           scenarioRecipe (Some 5%Q) None); reflexivity.
Defined.

(* ===================================================================== *)
(** ** Which object an ingredient preference lands in *)
(* ===================================================================== *)

Lemma afterUpdate_eq (ingredient : string) (liked : bool) (w : World) :
  afterUpdate ingredient liked w
  = let change := Service.applyIngredientPreference ingredient liked in
    let w2 :=
      match preferencesRef w with
      | Shared =>
          set_defaultPreferences (change (defaultPreferences w)) (afterCall w)
      | Own _ => afterCall w
      end in
    if nth 2 (rejections w) false then afterCall (afterCall w2)
    else set_preferencesItem
           (Json (change (deref w (preferencesRef w))))
           (afterCall (afterCall w2)).
Proof.
  unfold afterUpdate, deref. cbv zeta.
  destruct (preferencesRef w) as [| p];
    cbn [afterCall rejections set_rejections set_defaultPreferences];
    destruct (rejections w) as [| a [| b [| [|] rest]]]; reflexivity.
Qed.

(** X14. [updateIngredientPreference] never throws. When its first read hands
    out the default object (the read is rejected, or nothing usable is
    stored), the change is made in the default object itself, and an accepted
    write stores that changed default. When the first read hands out stored
    preferences, the default object is left alone and an accepted write stores
    the changed copy. *)
Theorem ingredient_update_target :
  forall (w : World) (ingredient : string) (liked : bool),
    value_of (Service.updateIngredientPreference ingredient liked) w
    = Returns tt /\
    (hd false (rejections w) = true \/ preferencesItem w = Absent \/
     preferencesItem w = Unparsable ->
     defaultPreferences
       (world_after (Service.updateIngredientPreference ingredient liked) w)
     = Service.applyIngredientPreference ingredient liked (defaultPreferences w) /\
     (nth 2 (rejections w) false = false ->
      preferencesItem
        (world_after (Service.updateIngredientPreference ingredient liked) w)
      = Json (Service.applyIngredientPreference ingredient liked
                (defaultPreferences w)))) /\
    (forall p,
        hd false (rejections w) = false ->
        preferencesItem w = Json p ->
        defaultPreferences
          (world_after (Service.updateIngredientPreference ingredient liked) w)
        = defaultPreferences w /\
        (nth 2 (rejections w) false = false ->
         preferencesItem
           (world_after (Service.updateIngredientPreference ingredient liked) w)
         = Json (Service.applyIngredientPreference ingredient liked p))).
Proof.
  intros w ingredient liked. unfold value_of, world_after.
  rewrite updateIngredientPreference_eq, afterUpdate_eq. cbn [fst snd].
  split; [reflexivity |]. split.
  - intros Hshared.
    assert (preferencesRef w = Shared) as ->.
    { unfold preferencesRef.
      destruct Hshared as [-> | [-> | ->]]; try reflexivity;
        destruct (hd false (rejections w)); reflexivity. }
    cbv zeta. split.
    + destruct (nth 2 (rejections w) false); reflexivity.
    + intros ->. reflexivity.
  - intros p Hread Hitem.
    assert (preferencesRef w = Own p) as ->
      by (unfold preferencesRef; rewrite Hread, Hitem; reflexivity).
    cbv zeta. split.
    + destruct (nth 2 (rejections w) false); reflexivity.
    + intros ->. reflexivity.
Qed.

Lemma ingredient_update_target_witness :
  (hd false (rejections
               (mkWorld initialDefaultPreferences
                  (Json (mkPreferences ["vegan"] ["basil"] [] [] 45 advanced))
                  Absent [true] "2024-05-05T08:00:00.000Z")) = true /\
   preferencesItem
     (world_after (Service.updateIngredientPreference "kale" false)
        (mkWorld initialDefaultPreferences
           (Json (mkPreferences ["vegan"] ["basil"] [] [] 45 advanced))
           Absent [true] "2024-05-05T08:00:00.000Z"))
   = Json (mkPreferences [] [] ["kale"] [] 60 beginner)) /\
  (preferencesItem
     (mkWorld initialDefaultPreferences
        (Json (mkPreferences ["vegan"] ["basil"] [] [] 45 advanced))
        Absent [] "2024-05-05T08:00:00.000Z")
   = Json (mkPreferences ["vegan"] ["basil"] [] [] 45 advanced) /\
   preferencesItem
     (world_after (Service.updateIngredientPreference "basil" false)
        (mkWorld initialDefaultPreferences
           (Json (mkPreferences ["vegan"] ["basil"] [] [] 45 advanced))
           Absent [] "2024-05-05T08:00:00.000Z"))
   = Json (mkPreferences ["vegan"] [] ["basil"] [] 45 advanced)).
Proof.
  split.
  - split; [reflexivity |].
    apply (ingredient_update_target
             (mkWorld initialDefaultPreferences
                (Json (mkPreferences ["vegan"] ["basil"] [] [] 45 advanced))
                Absent [true] "2024-05-05T08:00:00.000Z") "kale" false);
      [left; reflexivity | reflexivity].
  - split; [reflexivity |].
    destruct (ingredient_update_target
                (mkWorld initialDefaultPreferences
                   (Json (mkPreferences ["vegan"] ["basil"] [] [] 45 advanced))
                   Absent [] "2024-05-05T08:00:00.000Z") "basil" false)
      as [_ [_ Hstored]].
    apply (Hstored (mkPreferences ["vegan"] ["basil"] [] [] 45 advanced));
      reflexivity.
Defined.

(* ===================================================================== *)
(** ** Operations that only read *)
(* ===================================================================== *)

Lemma afterCall_sameStore (w : World) : sameStore w (afterCall w).
Proof. repeat split. Qed.

(** X15. Reading preferences or history, ranking recipes and suggesting
    ingredients never change what persists: the default object, the stored
    preferences and the stored history are the same afterwards, in both
    modules. *)
Theorem reads_leave_store_unchanged :
  forall (w : World) (names : list string) (recipes : list Recipe),
    sameStore w (world_after getUserPreferences w) /\
    sameStore w (world_after Service.getCookingHistory w) /\
    sameStore w (world_after
                   (Engine.getPersonalizedRecommendations names recipes) w) /\
    sameStore w (world_after
                   (Service.getPersonalizedRecommendations names recipes) w) /\
    sameStore w (world_after (Engine.getSuggestedIngredients names) w) /\
    sameStore w (world_after (Service.getSuggestedIngredients names) w).
Proof.
  intros w names recipes.
  unfold world_after, Engine.getPersonalizedRecommendations,
    Service.getPersonalizedRecommendations, Engine.getSuggestedIngredients,
    Service.getSuggestedIngredients, bind.
  rewrite !getCookingHistory_eq, !getUserPreferences_eq.
  rewrite !getCookingHistory_eq.
  unfold read, ret. repeat split.
Qed.

(* ===================================================================== *)
(** ** More on suggestions *)
(* ===================================================================== *)

Lemma firstOccurrences_In (seen l : list string) (x : string) :
  In x (firstOccurrences seen l) <-> In x l /\ ~ In x seen.
Proof.
  revert seen. induction l as [| y l IH]; intros seen; cbn.
  - tauto.
  - destruct (JS.Array_includes seen y) eqn:E.
    + apply Array_includes_In in E. rewrite IH. split.
      * intros [Hl Hs]. tauto.
      * intros [[-> | Hl] Hs]; [contradiction | tauto].
    + assert (~ In y seen) as Hy
        by (intros H; apply Array_includes_In in H; congruence).
      cbn. rewrite IH. split.
      * intros [<- | [Hl Hs]]; [tauto |].
        split; [tauto |]. intros H. apply Hs. apply in_or_app. tauto.
      * intros [[<- | Hl] Hs]; [tauto |].
        destruct (string_dec y x) as [-> | Hneq]; [tauto |].
        right. split; [exact Hl |]. intros H. apply in_app_or in H.
        destruct H as [H | [H | []]]; [tauto | congruence].
Qed.

Lemma firstOccurrences_NoDup (seen l : list string) :
  NoDup (firstOccurrences seen l).
Proof.
  revert seen. induction l as [| y l IH]; intros seen; cbn.
  - constructor.
  - destruct (JS.Array_includes seen y); [apply IH |].
    constructor; [| apply IH].
    intros H. apply firstOccurrences_In in H. destruct H as [_ H].
    apply H. apply in_or_app. right. left. reflexivity.
Qed.

Lemma complementaryByIngredient_In (table : list (string * list string))
    (ingredients : list string) (c : string) :
  In c (complementaryByIngredient table ingredients)
  <-> complements table ingredients c.
Proof.
  unfold complementaryByIngredient, complements. rewrite in_flat_map. split.
  - intros [ingredient [Hing H]]. apply in_flat_map in H.
    destruct H as [[key values] [Hentry H]]. cbn [fst snd] in H.
    destruct (JS.includes (JS.toLowerCase ingredient) key) eqn:E; [| destruct H].
    exists ingredient, key, values. tauto.
  - intros [ingredient [key [values [Hing [Hentry [Hinc Hc]]]]]].
    exists ingredient. split; [exact Hing |]. apply in_flat_map.
    exists (key, values). split; [exact Hentry |]. cbn [fst snd].
    rewrite Hinc. exact Hc.
Qed.

Lemma complementaryOver_rule (table : list (string * list string))
    (ingredients : list string) :
  NoDup (complementaryOver table ingredients) /\
  forall c, In c (complementaryOver table ingredients)
            <-> complements table ingredients c.
Proof.
  rewrite complementaryOver_spec. split; [apply firstOccurrences_NoDup |].
  intros c. rewrite firstOccurrences_In, complementaryByIngredient_In.
  cbn. tauto.
Qed.

(** X16. [getComplementaryIngredients] returns, without repetition, exactly
    the complements that its table lists under a key contained (after
    lower-casing the ingredient) in one of the given ingredients; this holds
    for the table of either module. *)
Theorem complementary_ingredients_rule :
  forall ingredients : list string,
    NoDup (Engine.getComplementaryIngredients ingredients) /\
    (forall c, In c (Engine.getComplementaryIngredients ingredients)
               <-> complements Engine.complementaryMap ingredients c) /\
    NoDup (Service.getComplementaryIngredients ingredients) /\
    (forall c, In c (Service.getComplementaryIngredients ingredients)
               <-> complements Service.complementaryMap ingredients c).
Proof.
  intros ingredients.
  unfold Engine.getComplementaryIngredients, Service.getComplementaryIngredients.
  pose proof (complementaryOver_rule Engine.complementaryMap ingredients)
    as [H1 H2].
  pose proof (complementaryOver_rule Service.complementaryMap ingredients)
    as [H3 H4].
  repeat split; try assumption; try (apply H2); try (apply H4).
Qed.

Lemma firstn_NoDup {A : Type} (n : nat) (l : list A) :
  NoDup l -> NoDup (firstn n l).
Proof.
  revert l. induction n as [| n IH]; intros [| x l] H; cbn; try constructor.
  - inversion H as [| ? ? Hnotin Hrest]; subst. intros Hin.
    apply Hnotin. apply In_firstn in Hin. exact Hin.
  - inversion H; subst. apply IH. assumption.
Qed.

Lemma suggestFrom_rule (table : list (string * list string))
    (preferences : UserPreferences) (currentIngredients : list string) :
  NoDup (suggestFrom table preferences currentIngredients) /\
  forall n,
    In n (suggestFrom table preferences currentIngredients) ->
    (In n (favoriteIngredients preferences) \/
     complements table currentIngredients n) /\
    (forall current, In current currentIngredients -> ~ ci_substring n current) /\
    (forall disliked, In disliked (dislikedIngredients preferences) ->
                      ~ ci_substring n disliked).
Proof.
  rewrite suggestFrom_spec. unfold suggestionsInOrder. split.
  - apply firstn_NoDup, NoDup_filter, firstOccurrences_NoDup.
  - intros n Hn. apply In_firstn in Hn. apply filter_In in Hn.
    destruct Hn as [Hn Hkeep]. apply firstOccurrences_In in Hn.
    destruct Hn as [Hn _]. apply in_app_or in Hn. split.
    + destruct Hn as [Hn | Hn]; [left; exact Hn |].
      right. apply complementaryByIngredient_In. exact Hn.
    + unfold keepSuggestion in Hkeep.
      rewrite andb_true_iff, !negb_true_iff in Hkeep.
      destruct Hkeep as [Hcur Hdis]. split.
      * intros current Hin Hsub. unfold ci_substring in Hsub.
        apply includes_spec in Hsub.
        assert (existsb (fun c => JS.includes (JS.toLowerCase c)
                                              (JS.toLowerCase n))
                        currentIngredients = true) as Hex
          by (apply existsb_exists; exists current; tauto).
        congruence.
      * intros disliked Hin Hsub. unfold ci_substring in Hsub.
        apply includes_spec in Hsub.
        assert (existsb (fun d => JS.includes (JS.toLowerCase d)
                                              (JS.toLowerCase n))
                        (dislikedIngredients preferences) = true) as Hex
          by (apply existsb_exists; exists disliked; tauto).
        congruence.
Qed.

(** X17. In every world the suggestions of either module contain no name
    twice; each suggested name is a favorite ingredient or a complement from
    the module's table for one of the current ingredients; and no suggested
    name is a case-insensitive substring of a current ingredient or of a
    disliked ingredient. *)
Theorem suggestions_rule :
  forall (w : World) (currentIngredients : list string),
    exists preferences engineSuggested serviceSuggested,
      value_of loadPreferences w = Returns preferences /\
      value_of (Engine.getSuggestedIngredients currentIngredients) w
      = Returns engineSuggested /\
      value_of (Service.getSuggestedIngredients currentIngredients) w
      = Returns serviceSuggested /\
      NoDup engineSuggested /\ NoDup serviceSuggested /\
      (forall n, In n engineSuggested ->
                 In n (favoriteIngredients preferences) \/
                 complements Engine.complementaryMap currentIngredients n) /\
      (forall n, In n serviceSuggested ->
                 In n (favoriteIngredients preferences) \/
                 complements Service.complementaryMap currentIngredients n) /\
      (forall n other,
          In n engineSuggested \/ In n serviceSuggested ->
          In other currentIngredients \/
          In other (dislikedIngredients preferences) ->
          ~ ci_substring n other).
Proof.
  intros w currentIngredients.
  pose proof (suggestFrom_rule Engine.complementaryMap
                (deref w (preferencesRef w)) currentIngredients) as [He1 He2].
  pose proof (suggestFrom_rule Service.complementaryMap
                (deref w (preferencesRef w)) currentIngredients) as [Hs1 Hs2].
  exists (deref w (preferencesRef w)). eexists. eexists.
  split; [unfold value_of; rewrite loadPreferences_eq; reflexivity |].
  split; [apply engine_suggest_eq |].
  split; [apply service_suggest_eq |].
  split; [exact He1 |]. split; [exact Hs1 |].
  split; [intros n Hn; apply (He2 n Hn) |].
  split; [intros n Hn; apply (Hs2 n Hn) |].
  intros n other [Hn | Hn] [Ho | Ho].
  - destruct (He2 n Hn) as [_ [Hcur _]]. apply Hcur; exact Ho.
  - destruct (He2 n Hn) as [_ [_ Hdis]]. apply Hdis; exact Ho.
  - destruct (Hs2 n Hn) as [_ [Hcur _]]. apply Hcur; exact Ho.
  - destruct (Hs2 n Hn) as [_ [_ Hdis]]. apply Hdis; exact Ho.
Qed.

(* ===================================================================== *)
(** ** Seasonal recommendations *)
(* ===================================================================== *)

Lemma season_fall (currentMonth : nat) :
  ~ In currentMonth [11; 0; 1; 2; 3; 4; 5; 6; 7]%nat ->
  getSeasonalRecommendations currentMonth
  = ["pumpkin"; "apples"; "pears"; "root vegetables"; "persimmons"].
Proof.
  intros H. unfold getSeasonalRecommendations. cbn [existsb].
  repeat match goal with
         | |- context [Nat.eqb currentMonth ?k] =>
             replace (Nat.eqb currentMonth k) with false
               by (symmetry; apply Nat.eqb_neq; intros ->; apply H; cbn; tauto)
         end.
  reflexivity.
Qed.

Ltac season_facts :=
  repeat split; intros; cbn in *;
  try reflexivity; try discriminate;
  intuition (try discriminate; try lia; try congruence).

(** X18. For every month number, [getSeasonalRecommendations] returns the five
    names of one season of its table, never the empty fallback: winter for
    months 11, 0 and 1, spring for 2 to 4, summer for 5 to 7, and fall for
    every other value. *)
Theorem seasonal_recommendations_rule :
  forall currentMonth : nat,
    exists season names,
      In (season, names) seasonalIngredients /\
      getSeasonalRecommendations currentMonth = names /\
      length names = 5%nat /\
      (season = "winter" <-> In currentMonth [11; 0; 1]%nat) /\
      (season = "spring" <-> In currentMonth [2; 3; 4]%nat) /\
      (season = "summer" <-> In currentMonth [5; 6; 7]%nat) /\
      (season = "fall" <->
       ~ In currentMonth [11; 0; 1; 2; 3; 4; 5; 6; 7]%nat).
Proof.
  intros currentMonth.
  destruct (in_dec Nat.eq_dec currentMonth [11; 0; 1; 2; 3; 4; 5; 6; 7]%nat)
    as [Hin | Hout].
  - cbn in Hin.
    destruct Hin as [<- | [<- | [<- | [<- | [<- | [<- | [<- | [<- | [<- | []]]]]]]]]].
    + exists "winter". eexists. split; [left; reflexivity |]. season_facts.
    + exists "winter". eexists. split; [left; reflexivity |]. season_facts.
    + exists "winter". eexists. split; [left; reflexivity |]. season_facts.
    + exists "spring". eexists. split; [right; left; reflexivity |].
      season_facts.
    + exists "spring". eexists. split; [right; left; reflexivity |].
      season_facts.
    + exists "spring". eexists. split; [right; left; reflexivity |].
      season_facts.
    + exists "summer". eexists. split; [right; right; left; reflexivity |].
      season_facts.
    + exists "summer". eexists. split; [right; right; left; reflexivity |].
      season_facts.
    + exists "summer". eexists. split; [right; right; left; reflexivity |].
      season_facts.
  - exists "fall". eexists.
    split; [right; right; right; left; reflexivity |].
    split; [apply season_fall; exact Hout |].
    split; [reflexivity |].
    cbn in Hout. season_facts.
Qed.

(* ===================================================================== *)
(** ** Delivery quotes *)
(* ===================================================================== *)

Lemma Qle_bool_false_intro (a b : Q) : (b < a)%Q -> Qle_bool a b = false.
Proof.
  intros H. destruct (Qle_bool a b) eqn:E; [| reflexivity].
  apply Qle_bool_iff in E. lra.
Qed.

(** Decide the comparisons a sort of quotes makes. *)
Ltac decide_order :=
  repeat match goal with
         | |- context [Qle_bool ?a 0] =>
             first
               [ replace (Qle_bool a 0) with true
                   by (symmetry; apply Qle_bool_iff; lra)
               | replace (Qle_bool a 0) with false
                   by (symmetry; apply Qle_bool_false_intro; lra) ]
         end.

Lemma getQuotes_eq (items : list Grocery.GroceryItem) :
  Grocery.getQuotes items
  = map (quoteOf items) (quotingProviders (basketSubtotal items)).
Proof.
  unfold Grocery.getQuotes, quoteOf, quotingProviders, deliveryFeeFor,
    basketSubtotal.
  generalize (Grocery.priceItems items) as priced. intros priced.
  generalize (Grocery.sumPrices priced) as s. intros s.
  cbn [fold_left Grocery.providers Grocery.available Grocery.minOrder
       Grocery.serviceFee Grocery.estimatedTime Grocery.instacart
       Grocery.amazon_fresh Grocery.uber_eats negb app].
  destruct (Qle_bool s 50); cbn [negb];
  destruct (Qle_bool 10 s) eqn:E10; destruct (Qle_bool 35 s) eqn:E35;
    destruct (Qle_bool 15 s) eqn:E15;
    try apply Qle_bool_iff in E10; try apply Qle_bool_iff in E35;
    try apply Qle_bool_iff in E15;
    try apply Qle_bool_false in E10; try apply Qle_bool_false in E35;
    try apply Qle_bool_false in E15;
    try (exfalso; lra);
    cbn [negb app map JS.sort fold_right];
    unfold Grocery.byTotal;
    repeat (progress (cbn [JS.insert Grocery.total]; decide_order));
    reflexivity.
Qed.





Lemma Record_get_In {A : Type} (key : string) (record : list (string * A))
    (v : A) :
  Record_get key record = Some v -> In (key, v) record.
Proof.
  induction record as [| [k x] record IH]; cbn; [discriminate |].
  destruct (String.eqb k key) eqn:E.
  - apply String.eqb_eq in E. intros [= <-]. left. rewrite E. reflexivity.
  - intros H. right. apply IH. exact H.
Qed.

Lemma mockPrices_positive (key : string) (price : JS.number) :
  Record_get key Grocery.mockPrices = Some price -> (0 < price)%Q.
Proof.
  intros H. apply Record_get_In in H. cbn in H.
  repeat (destruct H as [[= _ <-] | H]; [reflexivity |]). destruct H.
Qed.

Lemma or_default_nonneg (x : option JS.number) (d : JS.number) :
  (0 <= d)%Q -> (forall v, x = Some v -> 0 <= v)%Q ->
  (0 <= JS.or_default x d)%Q.
Proof.
  intros Hd Hx. unfold JS.or_default. destruct x as [v |]; [| exact Hd].
  destruct (JS.truthy v); [apply Hx; reflexivity | exact Hd].
Qed.

Lemma estimatedPrice_nonneg (itemName : string) (q price : JS.number) :
  (0 <= q)%Q -> Grocery.getEstimatedPrice itemName q = Some price ->
  (0 <= price)%Q.
Proof.
  intros Hq. unfold Grocery.getEstimatedPrice.
  destruct (Record_get (JS.toLowerCase itemName) Grocery.mockPrices)
    as [p |] eqn:E.
  - intros [= <-]. apply mockPrices_positive in E.
    apply Qmult_le_0_compat; [| exact Hq].
    unfold JS.or_default. destruct (JS.truthy p); lra.
  - destruct (JS.Array_includes Grocery.inheritedKeys (JS.toLowerCase itemName));
      [discriminate |].
    intros [= <-]. apply Qmult_le_0_compat; [lra | exact Hq].
Qed.

Lemma sumPrices_grows (more : list Grocery.GroceryItem) (start : JS.number) :
  Forall (fun item => 0 <= Grocery.quantity item)%Q more ->
  (start
   <= fold_left (fun sum item =>
                   (sum + JS.or_default (Grocery.estimatedPrice item) 0)%Q)
                (Grocery.priceItems more) start)%Q.
Proof.
  revert start. induction more as [| item more IH]; intros start Hq; cbn.
  - lra.
  - inversion Hq as [| ? ? Hitem Hrest]; subst.
    eapply Qle_trans; [| apply IH; exact Hrest].
    assert (0 <= JS.or_default
                   (Grocery.getEstimatedPrice (Grocery.name item)
                                              (Grocery.quantity item)) 0)%Q
      by (apply or_default_nonneg; [lra |];
          intros v Hv; eapply estimatedPrice_nonneg; eassumption).
    lra.
Qed.

Lemma quotingProviders_mono (s s' : JS.number) :
  (s <= s')%Q -> incl (quotingProviders s) (quotingProviders s').
Proof.
  intros Hle. unfold quotingProviders.
  destruct (Qle_bool 10 s) eqn:A; destruct (Qle_bool 15 s) eqn:B;
    destruct (Qle_bool 35 s) eqn:C; destruct (Qle_bool 10 s') eqn:A';
    destruct (Qle_bool 15 s') eqn:B'; destruct (Qle_bool 35 s') eqn:C';
    cbn [negb];
    try apply Qle_bool_iff in A; try apply Qle_bool_iff in B;
    try apply Qle_bool_iff in C;
    try apply Qle_bool_false in A'; try apply Qle_bool_false in B';
    try apply Qle_bool_false in C';
    try (exfalso; lra);
    intros x Hx; cbn in *; tauto.
Qed.

(** X21. Adding items with non-negative quantities to a basket never lowers
    its subtotal, and every provider that quoted for the basket still quotes
    for the larger one. *)
Theorem larger_basket_keeps_providers :
  forall items more : list Grocery.GroceryItem,
    Forall (fun item => 0 <= Grocery.quantity item)%Q more ->
    (basketSubtotal items <= basketSubtotal (items ++ more))%Q /\
    incl (map Grocery.provider (Grocery.getQuotes items))
         (map Grocery.provider (Grocery.getQuotes (items ++ more))).
Proof.
  intros items more Hq.
  assert (basketSubtotal items <= basketSubtotal (items ++ more))%Q as Hle.
  { unfold basketSubtotal, Grocery.sumPrices, Grocery.priceItems.
    rewrite map_app, fold_left_app. apply (sumPrices_grows more). exact Hq. }
  split; [exact Hle |].
  rewrite (getQuotes_eq items), (getQuotes_eq (items ++ more)), !map_map.
  cbn [quoteOf Grocery.provider]. rewrite !map_id.
  apply quotingProviders_mono. exact Hle.
Qed.

Lemma larger_basket_keeps_providers_witness :
  Forall (fun item => 0 <= Grocery.quantity item)%Q
         [Grocery.mkItem "Olive Oil" 1 "bottle" None None] /\
  incl (map Grocery.provider
          (Grocery.getQuotes [Grocery.mkItem "chicken breast" 2 "piece" None None]))
       (map Grocery.provider
          (Grocery.getQuotes
             ([Grocery.mkItem "chicken breast" 2 "piece" None None]
              ++ [Grocery.mkItem "Olive Oil" 1 "bottle" None None]))).
Proof.
  assert (Forall (fun item => 0 <= Grocery.quantity item)%Q
                 [Grocery.mkItem "Olive Oil" 1 "bottle" None None]) as Hq
    by (constructor; [cbn; lra | constructor]).
  split; [exact Hq |].
  apply (larger_basket_keeps_providers
           [Grocery.mkItem "chicken breast" 2 "piece" None None]
           [Grocery.mkItem "Olive Oil" 1 "bottle" None None] Hq).
Defined.

(* ===================================================================== *)
(** ** Order tracking *)
(* ===================================================================== *)

(** X22. For every value that [Math.random()] can return (0 inclusive to 1
    exclusive), [trackOrder] reports one of the statuses preparing,
    picked_up and on_the_way: it never reports delivered and never leaves the
    status undefined. *)
Theorem tracking_never_delivered :
  forall random : JS.number,
    (0 <= random)%Q -> (random < 1)%Q ->
    exists status,
      Grocery.trackOrderStatus random = Some status /\
      status <> Grocery.delivered.
Proof.
  intros random Hlo Hhi. unfold Grocery.trackOrderStatus.
  cbn [length]. change (JS.of_nat 3) with 3%Q.
  pose proof (Qfloor_le (random * 3)) as Hfloor.
  assert (0 <= Qfloor (random * 3))%Z as Hnonneg.
  { change 0%Z with (Qfloor 0). apply Qfloor_resp_le. lra. }
  assert (Qfloor (random * 3) < 3)%Z as Hlt.
  { rewrite Zlt_Qlt. change (inject_Z 3) with 3%Q. lra. }
  destruct (Qfloor (random * 3)) as [| p | p] eqn:E; try lia.
  - cbn. eexists. split; [reflexivity | discriminate].
  - assert (p = 1%positive \/ p = 2%positive) as [-> | ->] by lia;
      cbn; eexists; (split; [reflexivity | discriminate]).
Qed.

Lemma tracking_never_delivered_witness :
  (0 <= 0.99)%Q /\
  exists status,
    Grocery.trackOrderStatus 0.99 = Some status /\ status <> Grocery.delivered.
Proof.
  split; [lra |].
  apply (tracking_never_delivered 0.99); lra.
Defined.

(* ===================================================================== *)
(** ** The home screen *)
(* ===================================================================== *)

(** X23. [loadDashboardData] always returns with [loading] switched off. When
    the read of the fridge is accepted and holds items, the state shows these
    items and the engine's suggestions for their names: at most 8, none of
    them the name of an item in the fridge. In every other case (a rejected
    read, nothing stored, unparsable text) the items and suggestions shown
    stay as they were. *)
Theorem dashboard_load :
  forall (w : World) (savedFridge : Item (list Home.FridgeItem))
         (state : Home.State),
    exists state',
      value_of (Home.loadDashboardData savedFridge state) w = Returns state' /\
      Home.loading state' = false /\
      match savedFridge with
      | Json items =>
          if hd false (rejections w)
          then Home.fridgeItems state' = Home.fridgeItems state /\
               Home.suggestedIngredients state'
               = Home.suggestedIngredients state
          else Home.fridgeItems state' = items /\
               value_of (Engine.getSuggestedIngredients (map Home.name items))
                        (afterCall w)
               = Returns (Home.suggestedIngredients state') /\
               (length (Home.suggestedIngredients state') <= 8)%nat /\
               forall n, In n (Home.suggestedIngredients state') ->
                         ~ In n (map Home.name items)
      | _ =>
          Home.fridgeItems state' = Home.fridgeItems state /\
          Home.suggestedIngredients state' = Home.suggestedIngredients state
      end.
Proof.
  intros w savedFridge state. unfold value_of, Home.loadDashboardData, storageCall.
  fold (afterCall w).
  destruct savedFridge as [| | items];
    destruct (hd false (rejections w)); cbn [fst];
    try (eexists; repeat split; reflexivity).
  pose proof (engine_suggest_eq (afterCall w) (map Home.name items)) as Heq.
  unfold value_of in Heq.
  destruct (Engine.getSuggestedIngredients (map Home.name items) (afterCall w))
    as [[suggestions |] w2]; cbn [fst] in Heq; [| discriminate].
  injection Heq as Heq. eexists. cbn [fst].
  split; [reflexivity |]. split; [reflexivity |]. split; [reflexivity |].
  cbn [Home.suggestedIngredients]. split; [reflexivity |].
  rewrite Heq. split; [apply suggestFrom_bounded |].
  intros n Hn. eapply suggestFrom_bounded. exact Hn.
Qed.

(* ===================================================================== *)
(** ** Recipe of the day *)
(* ===================================================================== *)

(** X24. [getRecipeOfTheDay] answers from its cache when the cached date is
    today's: it returns the cached recipe, requests nothing, leaves the cache
    as it is and makes a single storage call. When reading the cache is
    rejected or the cached text does not parse, it returns nothing and
    requests nothing. *)
Theorem recipe_of_the_day_cache :
  forall (env : Daily.Env) (w : World),
    (forall saved,
        hd false (rejections w) = false ->
        Daily.savedData env = Json saved ->
        Daily.date saved = Daily.today env ->
        value_of (Daily.getRecipeOfTheDay env) w
        = Returns (Daily.mkOutcome (Some (Daily.recipe saved))
                                   (Daily.savedData env) []) /\
        rejections (world_after (Daily.getRecipeOfTheDay env) w)
        = tl (rejections w)) /\
    (hd false (rejections w) = true \/ Daily.savedData env = Unparsable ->
     value_of (Daily.getRecipeOfTheDay env) w
     = Returns (Daily.mkOutcome None (Daily.savedData env) [])).
Proof.
  intros env w. unfold value_of, world_after, Daily.getRecipeOfTheDay,
    storageCall. split.
  - intros saved -> -> ->. rewrite String.eqb_refl. split; reflexivity.
  - intros [-> | ->]; [reflexivity |].
    destruct (hd false (rejections w)); reflexivity.
Qed.

Lemma recipe_of_the_day_cache_witness :
  (Daily.date (Daily.mkCached "Mon Jan 01 2024" scenarioRecipe)
   = Daily.today (Daily.mkEnv "Mon Jan 01 2024" "KEY"
                    (Json (Daily.mkCached "Mon Jan 01 2024" scenarioRecipe))
                    (fun _ => Throws)) /\
   value_of (Daily.getRecipeOfTheDay
               (Daily.mkEnv "Mon Jan 01 2024" "KEY"
                  (Json (Daily.mkCached "Mon Jan 01 2024" scenarioRecipe))
                  (fun _ => Throws)))
            (freshWorld [] "2024-01-01T08:00:00.000Z")
   = Returns (Daily.mkOutcome (Some scenarioRecipe)
                (Json (Daily.mkCached "Mon Jan 01 2024" scenarioRecipe)) [])) /\
  (hd false (rejections (freshWorld [true] "2024-01-01T08:00:00.000Z")) = true /\
   value_of (Daily.getRecipeOfTheDay
               (Daily.mkEnv "Mon Jan 01 2024" "KEY" Absent
                  (fun _ => Returns (Some scenarioRecipe))))
            (freshWorld [true] "2024-01-01T08:00:00.000Z")
   = Returns (Daily.mkOutcome None Absent [])).
Proof.
  split.
  - split; [reflexivity |].
    destruct (recipe_of_the_day_cache
                (Daily.mkEnv "Mon Jan 01 2024" "KEY"
                   (Json (Daily.mkCached "Mon Jan 01 2024" scenarioRecipe))
                   (fun _ => Throws))
                (freshWorld [] "2024-01-01T08:00:00.000Z")) as [Hhit _].
    apply (Hhit (Daily.mkCached "Mon Jan 01 2024" scenarioRecipe));
      reflexivity.
  - split; [reflexivity |].
    apply (recipe_of_the_day_cache
             (Daily.mkEnv "Mon Jan 01 2024" "KEY" Absent
                (fun _ => Returns (Some scenarioRecipe)))
             (freshWorld [true] "2024-01-01T08:00:00.000Z")).
    left. reflexivity.
Defined.

Lemma nth1_afterCall_tl (w : World) :
  nth 1 (rejections (afterCall w)) false = nth 2 (rejections w) false.
Proof. cbn. destruct (rejections w) as [| a [| b [| c rest]]]; reflexivity. Qed.

Lemma dietParamOf_eq (restrictions : list string) :
  Daily.dietParamOf restrictions
  = if JS.Array_includes restrictions "vegan" then "&diet=vegan"
    else if JS.Array_includes restrictions "vegetarian"
         then "&diet=vegetarian" else "".
Proof.
  unfold Daily.dietParamOf. cbv zeta.
  destruct (JS.Array_includes restrictions "vegan"); reflexivity.
Qed.

Lemma fetchNew_eq (env : Daily.Env) (w1 : World) :
  Daily.fetchNew env w1
  = let url :=
      Daily.urlFor env
        (Daily.dietParamOf
           (dietaryRestrictions (deref w1 (preferencesRef w1)))) in
    match Daily.firstRecipe env url with
    | Returns (Some recipe') =>
        if nth 1 (rejections w1) false
        then (Returns (Daily.mkOutcome None (Daily.savedData env) [url]),
              afterCall (afterCall w1))
        else (Returns (Daily.mkOutcome (Some recipe')
                         (Json (Daily.mkCached (Daily.today env) recipe'))
                         [url]),
              afterCall (afterCall w1))
    | _ => (Returns (Daily.mkOutcome None (Daily.savedData env) [url]),
            afterCall w1)
    end.
Proof.
  unfold Daily.fetchNew. rewrite getUserPreferences_eq. unfold read.
  fold (deref (afterCall w1) (preferencesRef w1)).
  change (deref (afterCall w1) (preferencesRef w1))
    with (deref w1 (preferencesRef w1)).
  cbv zeta.
  destruct (Daily.firstRecipe env _) as [[recipe' |] |]; try reflexivity.
  unfold storageCall. rewrite nth1_afterCall.
  destruct (nth 1 (rejections w1) false); reflexivity.
Qed.

(** X25. When the cache does not answer (nothing cached, or a recipe cached
    on another date), [getRecipeOfTheDay] requests exactly one URL: the
    random-recipe address with the API key, followed by "&diet=vegan" when
    the preferences list "vegan", else by "&diet=vegetarian" when they list
    "vegetarian", else by nothing. A recipe that comes back is returned and
    cached under today's date if the cache write is accepted; if that write
    is rejected the call returns nothing although a recipe was fetched, and
    when no recipe comes back it returns nothing and leaves the cache. *)
Theorem recipe_of_the_day_fetch :
  forall (env : Daily.Env) (w : World),
    hd false (rejections w) = false ->
    (Daily.savedData env = Absent \/
     exists saved, Daily.savedData env = Json saved /\
                   Daily.date saved <> Daily.today env) ->
    exists preferences url outcome,
      value_of loadPreferences (afterCall w) = Returns preferences /\
      url = ("https://api.spoonacular.com/recipes/random?number=1&apiKey="
             ++ Daily.apiKey env
             ++ (if JS.Array_includes (dietaryRestrictions preferences) "vegan"
                 then "&diet=vegan"
                 else if JS.Array_includes (dietaryRestrictions preferences)
                                           "vegetarian"
                      then "&diet=vegetarian" else ""))%string /\
      value_of (Daily.getRecipeOfTheDay env) w = Returns outcome /\
      Daily.requested outcome = [url] /\
      match Daily.firstRecipe env url with
      | Returns (Some fetched) =>
          if nth 2 (rejections w) false
          then Daily.returned outcome = None /\
               Daily.cache outcome = Daily.savedData env
          else Daily.returned outcome = Some fetched /\
               Daily.cache outcome
               = Json (Daily.mkCached (Daily.today env) fetched)
      | _ => Daily.returned outcome = None /\
             Daily.cache outcome = Daily.savedData env
      end.
Proof.
  intros env w Hread Hmiss.
  assert (Daily.getRecipeOfTheDay env w = Daily.fetchNew env (afterCall w))
    as Hget.
  { unfold Daily.getRecipeOfTheDay, storageCall. rewrite Hread.
    fold (afterCall w).
    destruct Hmiss as [-> | [saved [-> Hdate]]]; [reflexivity |].
    apply String.eqb_neq in Hdate. rewrite Hdate. reflexivity. }
  rewrite fetchNew_eq in Hget. cbv zeta in Hget.
  unfold Daily.urlFor in Hget. rewrite dietParamOf_eq, nth1_afterCall_tl in Hget.
  set (preferences := deref (afterCall w) (preferencesRef (afterCall w))) in *.
  set (url := ("https://api.spoonacular.com/recipes/random?number=1&apiKey="
               ++ Daily.apiKey env
               ++ (if JS.Array_includes (dietaryRestrictions preferences) "vegan"
                   then "&diet=vegan"
                   else if JS.Array_includes (dietaryRestrictions preferences)
                                             "vegetarian"
                        then "&diet=vegetarian" else ""))%string) in *.
  exists preferences, url. unfold value_of. rewrite Hget.
  assert (fst (loadPreferences (afterCall w)) = Returns preferences) as Hload
    by (rewrite loadPreferences_eq; reflexivity).
  destruct (Daily.firstRecipe env url) as [[fetched |] |];
    [destruct (nth 2 (rejections w) false) |..];
    (eexists; split; [exact Hload |]; split; [reflexivity |];
     cbn [fst Daily.requested Daily.returned Daily.cache];
     repeat split; reflexivity).
Qed.

Lemma recipe_of_the_day_fetch_witness :
  hd false (rejections veganWorld) = false /\
  (Daily.savedData uncachedEnv = Absent \/
   exists saved, Daily.savedData uncachedEnv = Json saved /\
                 Daily.date saved <> Daily.today uncachedEnv) /\
  exists preferences url outcome,
    value_of loadPreferences (afterCall veganWorld) = Returns preferences /\
    url = ("https://api.spoonacular.com/recipes/random?number=1&apiKey="
           ++ Daily.apiKey uncachedEnv
           ++ (if JS.Array_includes (dietaryRestrictions preferences) "vegan"
               then "&diet=vegan"
               else if JS.Array_includes (dietaryRestrictions preferences)
                                         "vegetarian"
                    then "&diet=vegetarian" else ""))%string /\
    value_of (Daily.getRecipeOfTheDay uncachedEnv) veganWorld
    = Returns outcome /\
    Daily.requested outcome = [url] /\
    match Daily.firstRecipe uncachedEnv url with
    | Returns (Some fetched) =>
        if nth 2 (rejections veganWorld) false
        then Daily.returned outcome = None /\
             Daily.cache outcome = Daily.savedData uncachedEnv
        else Daily.returned outcome = Some fetched /\
             Daily.cache outcome
             = Json (Daily.mkCached (Daily.today uncachedEnv) fetched)
    | _ => Daily.returned outcome = None /\
           Daily.cache outcome = Daily.savedData uncachedEnv
    end.
Proof.
  split; [reflexivity |]. split; [left; reflexivity |].
  apply (recipe_of_the_day_fetch uncachedEnv veganWorld);
    [reflexivity | left; reflexivity].
Defined.

(* ===================================================================== *)
(** ** Placing an order *)
(* ===================================================================== *)




(* ===================================================================== *)
(** ** Letter case *)
(* ===================================================================== *)

Lemma lower_char_idem (c : ascii) : JS.lower_char (JS.lower_char c) = JS.lower_char c.
Proof.
  destruct c as [[|] [|] [|] [|] [|] [|] [|] [|]]; reflexivity.
Qed.

Lemma toLowerCase_idem (s : string) :
  JS.toLowerCase (JS.toLowerCase s) = JS.toLowerCase s.
Proof.
  induction s as [| c s IH]; cbn; [reflexivity |].
  rewrite lower_char_idem, IH. reflexivity.
Qed.

Lemma existsb_map_lower (rule : string -> string -> bool) (x : string)
    (names : list string) :
  (forall name, rule x (JS.toLowerCase name) = rule x name) ->
  existsb (rule x) (map JS.toLowerCase names) = existsb (rule x) names.
Proof.
  intros Hrule. induction names as [| name names IH]; cbn; [reflexivity |].
  rewrite Hrule, IH. reflexivity.
Qed.

Lemma availability_lower (recipeIngredients available : list string) :
  calculateIngredientAvailability recipeIngredients
                                  (map JS.toLowerCase available)
  = calculateIngredientAvailability recipeIngredients available.
Proof.
  unfold calculateIngredientAvailability.
  destruct (length recipeIngredients =? 0)%nat; [reflexivity |].
  f_equal. f_equal. f_equal. apply filter_ext. intros x.
  apply existsb_map_lower. intros name. unfold availabilityMatch.
  rewrite toLowerCase_idem. reflexivity.
Qed.

Lemma favoriteBonus_lower (recipeIngredients favorites : list string) :
  calculateFavoriteIngredientsBonus recipeIngredients
                                    (map JS.toLowerCase favorites)
  = calculateFavoriteIngredientsBonus recipeIngredients favorites.
Proof.
  unfold calculateFavoriteIngredientsBonus. rewrite length_map.
  destruct (length favorites =? 0)%nat; [reflexivity |].
  f_equal. f_equal. f_equal. apply filter_ext. intros x.
  apply existsb_map_lower. intros name. unfold preferenceMatch.
  rewrite toLowerCase_idem. reflexivity.
Qed.

Lemma dislikedPenalty_lower (recipeIngredients disliked : list string) :
  calculateDislikedIngredientsPenalty recipeIngredients
                                      (map JS.toLowerCase disliked)
  = calculateDislikedIngredientsPenalty recipeIngredients disliked.
Proof.
  unfold calculateDislikedIngredientsPenalty. rewrite length_map.
  destruct (length disliked =? 0)%nat; [reflexivity |].
  f_equal. f_equal. f_equal. apply filter_ext. intros x.
  apply existsb_map_lower. intros name. unfold preferenceMatch.
  rewrite toLowerCase_idem. reflexivity.
Qed.

(** X27. The score does not depend on the letter case (A-Z against a-z) in
    which the available, favorite and disliked ingredients are written:
    putting all of them in lower case leaves the score of either module
    unchanged. *)
Theorem score_ignores_letter_case :
  forall (recipe : Recipe) (preferences : UserPreferences)
         (history : list CookingHistory) (available : list string),
    Engine.calculateRecipeScore recipe (lowerCased preferences)
                                (map JS.toLowerCase available)
    = Engine.calculateRecipeScore recipe preferences available /\
    Service.calculateRecipeScore recipe (lowerCased preferences) history
                                 (map JS.toLowerCase available)
    = Service.calculateRecipeScore recipe preferences history available.
Proof.
  intros recipe preferences history available.
  unfold Engine.calculateRecipeScore, Service.calculateRecipeScore, lowerCased.
  cbn [favoriteIngredients dislikedIngredients maxCookingTime
       dietaryRestrictions skillLevel].
  rewrite availability_lower, favoriteBonus_lower, dislikedPenalty_lower.
  split; reflexivity.
Qed.
